(** * LTC3335 software correction factor: tables and interpolation

    A shallow embedding of
    [bms_firmware/libraries/LTC3335/LTC3335_Correction_Tables.cpp].

    The file holds 64 constant tables of 38 signed 16-bit words, one of
    which is compiled into program memory, and one function,
    [LTC3335_Get_Software_Correction_Factor], which clamps its argument to
    the table range and interpolates linearly between two neighbouring
    entries.

    The function is written in C integer arithmetic, so the embedding keeps
    the C types of every sub-expression: integer promotion, the usual
    arithmetic conversions, wrap-around of unsigned types, overflow of
    signed types (undefined, modelled as failure) and truncating division.
    The width of [int] is a property of the target that the file does not
    fix (16 bits on AVR, 32 bits on ARM), so it is a parameter. *)

From Stdlib Require Import ZArith List Bool Lia.
Import ListNotations.

Local Open Scope Z_scope.

(** ** C integer types and values *)

(** Width of [int] on the target. *)
Inductive int_model : Type :=
| Int16
| Int32.

Definition int_bits (tgt : int_model) : Z :=
  match tgt with
  | Int16 => 16
  | Int32 => 32
  end.

Record ctype : Type := CType { is_signed : bool; bits : Z }.

Definition uint8_t : ctype := CType false 8.
Definition int16_t : ctype := CType true 16.
Definition uint16_t : ctype := CType false 16.
Definition int32_t : ctype := CType true 32.
Definition c_int (tgt : int_model) : ctype := CType true (int_bits tgt).

Definition min_of (t : ctype) : Z :=
  if is_signed t then - 2 ^ (bits t - 1) else 0.

Definition max_of (t : ctype) : Z :=
  if is_signed t then 2 ^ (bits t - 1) - 1 else 2 ^ bits t - 1.

Definition representable (t : ctype) (z : Z) : bool :=
  (min_of t <=? z) && (z <=? max_of t).

(** Conversion of a mathematical integer to type [t]: reduction modulo
    [2 ^ bits t], read back in two's complement for a signed type. *)
Definition wrap (t : ctype) (z : Z) : Z :=
  if is_signed t
  then (z + 2 ^ (bits t - 1)) mod 2 ^ bits t - 2 ^ (bits t - 1)
  else z mod 2 ^ bits t.

Record cval : Type := CVal { ty : ctype; val : Z }.

(** An explicit cast, or the implicit conversion of an initialisation or a
    [return]. *)
Definition cast (t : ctype) (v : cval) : cval := CVal t (wrap t (val v)).

(** Integer promotion: a type narrower than [int] becomes [int]. *)
Definition promote (tgt : int_model) (t : ctype) : ctype :=
  if bits t <? int_bits tgt then c_int tgt else t.

(** The usual arithmetic conversions, with the width as conversion rank. *)
Definition usual (tgt : int_model) (t1 t2 : ctype) : ctype :=
  let a := promote tgt t1 in
  let b := promote tgt t2 in
  if Bool.eqb (is_signed a) (is_signed b)
  then (if bits a <? bits b then b else a)
  else
    let u := if is_signed a then b else a in
    let s := if is_signed a then a else b in
    if bits s <=? bits u then u else s.

(** The value of an arithmetic result of type [t]: unsigned arithmetic
    wraps, signed arithmetic that leaves the range has no defined value. *)
Definition result (t : ctype) (z : Z) : option cval :=
  if is_signed t
  then (if representable t z then Some (CVal t z) else None)
  else Some (CVal t (wrap t z)).

Definition arith (tgt : int_model) (f : Z -> Z -> Z) (a b : cval)
  : option cval :=
  let t := usual tgt (ty a) (ty b) in
  result t (f (wrap t (val a)) (wrap t (val b))).

(** [/] truncates toward zero; division by zero has no defined value. *)
Definition divide (tgt : int_model) (a b : cval) : option cval :=
  let t := usual tgt (ty a) (ty b) in
  let y := wrap t (val b) in
  if y =? 0 then None else result t (Z.quot (wrap t (val a)) y).

Definition compare (tgt : int_model) (f : Z -> Z -> bool) (a b : cval)
  : bool :=
  let t := usual tgt (ty a) (ty b) in
  f (wrap t (val a)) (wrap t (val b)).

(** An integer literal that fits [int]. *)
Definition lit (tgt : int_model) (z : Z) : cval := CVal (c_int tgt) z.

(** ** Memory and the monad of C computations *)

(** The function runs against the program memory that holds the table and
    the data memory of the rest of the firmware. *)
Record memory : Type := Memory {
  progmem : list Z;   (* the words of LTC3335_Software_Correction_Table *)
  sram : list Z       (* data memory *)
}.

(** A computation reads and may update the memory, and fails where C gives
    no defined behaviour. *)
Definition C (A : Type) : Type := memory -> option (A * memory).

Definition ret {A : Type} (a : A) : C A := fun m => Some (a, m).

Definition bind {A B : Type} (c : C A) (k : A -> C B) : C B :=
  fun m =>
    match c m with
    | Some (a, m') => k a m'
    | None => None
    end.

Definition lift {A : Type} (o : option A) : C A :=
  fun m =>
    match o with
    | Some a => Some (a, m)
    | None => None
    end.

Declare Scope c_scope.
Delimit Scope c_scope with C.
Notation "x <- c ;; k" := (bind c (fun x => k))
  (at level 100, c at next level, right associativity) : c_scope.
Local Open Scope c_scope.

(** [pgm_read_word(&LTC3335_Software_Correction_Table[i])]: the 16-bit word
    stored at index [i] of the table, as [uint16_t].  An index outside the
    array is an out-of-bounds access. *)
Definition pgm_read_word (i : cval) : C cval :=
  fun m =>
    if val i <? 0 then None
    else
      match nth_error (progmem m) (Z.to_nat (val i)) with
      | Some w => Some (CVal uint16_t (wrap uint16_t w), m)
      | None => None
      end.

(** ** Definitions of the source file *)

Inductive ipeak_configuration : Type :=
| LTC3335_IPEAK_CONFIGURATION_5MA
| LTC3335_IPEAK_CONFIGURATION_10MA
| LTC3335_IPEAK_CONFIGURATION_15MA
| LTC3335_IPEAK_CONFIGURATION_25MA
| LTC3335_IPEAK_CONFIGURATION_50MA
| LTC3335_IPEAK_CONFIGURATION_100MA
| LTC3335_IPEAK_CONFIGURATION_150MA
| LTC3335_IPEAK_CONFIGURATION_250MA.

Inductive output_voltage : Type :=
| LTC3335_OUTPUT_VOLTAGE_1_8V
| LTC3335_OUTPUT_VOLTAGE_2_5V
| LTC3335_OUTPUT_VOLTAGE_2_8V
| LTC3335_OUTPUT_VOLTAGE_3_0V
| LTC3335_OUTPUT_VOLTAGE_3_3V
| LTC3335_OUTPUT_VOLTAGE_3_6V
| LTC3335_OUTPUT_VOLTAGE_4_5V
| LTC3335_OUTPUT_VOLTAGE_5_0V.

Definition LTC3335_VBAT_MIN : Z := 1800.
Definition LTC3335_VBAT_STEP : Z := 100.
Definition LTC3335_VBAT_NUM : Z := 38.

(** The table selected by the two configuration symbols, with
    [LTC3335_USE_SOFTWARE_CORRECTION] defined. *)
Definition LTC3335_Software_Correction_Table
    (ipeak : ipeak_configuration) (vout : output_voltage) : list Z :=
  match ipeak, vout with
  | LTC3335_IPEAK_CONFIGURATION_5MA, LTC3335_OUTPUT_VOLTAGE_1_8V =>
      [10886; 11274; 11652; 12022; 12387; 12748; 13108; 13467; 13826; 14187;
      14549; 14915; 15282; 15653; 16027; 16403; 16781; 17162; 17545; 17929;
      18314; 18700; 19087; 19473; 19860; 20247; 20634; 21021; 21409; 21798;
      22188; 22581; 22979; 23381; 23791; 24210; 24640; 25085]
  | LTC3335_IPEAK_CONFIGURATION_5MA, LTC3335_OUTPUT_VOLTAGE_2_5V =>
      [9622; 9958; 10287; 10609; 10927; 11241; 11553; 11864; 12176; 12488;
      12802; 13119; 13438; 13761; 14087; 14416; 14750; 15087; 15428; 15772;
      16120; 16472; 16827; 17185; 17546; 17909; 18276; 18645; 19016; 19390;
      19766; 20145; 20527; 20911; 21298; 21690; 22085; 22485]
  | LTC3335_IPEAK_CONFIGURATION_5MA, LTC3335_OUTPUT_VOLTAGE_2_8V =>
      [9114; 9461; 9794; 10116; 10430; 10737; 11040; 11340; 11638; 11937;
      12237; 12540; 12845; 13153; 13465; 13781; 14102; 14427; 14756; 15089;
      15427; 15768; 16113; 16461; 16813; 17167; 17524; 17883; 18244; 18608;
      18974; 19343; 19714; 20088; 20466; 20848; 21235; 21627]
  | LTC3335_IPEAK_CONFIGURATION_5MA, LTC3335_OUTPUT_VOLTAGE_3_0V =>
      [8819; 9164; 9494; 9813; 10123; 10426; 10724; 11020; 11313; 11606;
      11901; 12197; 12495; 12797; 13103; 13412; 13726; 14044; 14366; 14693;
      15023; 15358; 15696; 16038; 16382; 16730; 17081; 17435; 17790; 18149;
      18509; 18872; 19238; 19607; 19979; 20355; 20736; 21122]
  | LTC3335_IPEAK_CONFIGURATION_5MA, LTC3335_OUTPUT_VOLTAGE_3_3V =>
      [8426; 8759; 9080; 9392; 9696; 9994; 10288; 10579; 10868; 11157; 11446;
      11736; 12029; 12324; 12622; 12923; 13228; 13537; 13850; 14167; 14488;
      14813; 15141; 15473; 15809; 16149; 16491; 16837; 17185; 17537; 17891;
      18248; 18607; 18969; 19335; 19703; 20075; 20451]
  | LTC3335_IPEAK_CONFIGURATION_5MA, LTC3335_OUTPUT_VOLTAGE_3_6V =>
      [8058; 8385; 8701; 9009; 9310; 9606; 9898; 10186; 10473; 10759; 11045;
      11331; 11619; 11908; 12200; 12495; 12793; 13094; 13399; 13708; 14020;
      14337; 14657; 14982; 15310; 15642; 15977; 16316; 16659; 17004; 17353;
      17705; 18059; 18416; 18776; 19138; 19503; 19869]
  | LTC3335_IPEAK_CONFIGURATION_5MA, LTC3335_OUTPUT_VOLTAGE_4_5V =>
      [6891; 7319; 7709; 8068; 8401; 8713; 9010; 9294; 9569; 9839; 10106;
      10372; 10639; 10908; 11181; 11457; 11738; 12024; 12315; 12610; 12910;
      13215; 13523; 13835; 14151; 14469; 14789; 15111; 15436; 15763; 16092;
      16424; 16760; 17101; 17447; 17802; 18166; 18542]
  | LTC3335_IPEAK_CONFIGURATION_5MA, LTC3335_OUTPUT_VOLTAGE_5_0V =>
      [6630; 6964; 7289; 7605; 7914; 8216; 8512; 8803; 9090; 9374; 9655; 9933;
      10210; 10487; 10763; 11039; 11316; 11595; 11876; 12159; 12445; 12734;
      13027; 13323; 13624; 13929; 14239; 14553; 14872; 15197; 15526; 15861;
      16200; 16544; 16894; 17247; 17606; 17968]
  | LTC3335_IPEAK_CONFIGURATION_10MA, LTC3335_OUTPUT_VOLTAGE_1_8V =>
      [4951; 5152; 5354; 5559; 5766; 5977; 6191; 6410; 6633; 6860; 7092; 7328;
      7569; 7815; 8065; 8320; 8580; 8844; 9112; 9384; 9661; 9941; 10225;
      10512; 10803; 11097; 11394; 11694; 11997; 12302; 12610; 12921; 13234;
      13550; 13869; 14191; 14516; 14844]
  | LTC3335_IPEAK_CONFIGURATION_10MA, LTC3335_OUTPUT_VOLTAGE_2_5V =>
      [4225; 4386; 4552; 4722; 4897; 5077; 5262; 5451; 5645; 5843; 6046; 6253;
      6464; 6679; 6898; 7121; 7348; 7578; 7812; 8050; 8291; 8535; 8783; 9034;
      9288; 9547; 9809; 10074; 10344; 10618; 10897; 11180; 11469; 11763;
      12064; 12371; 12686; 13008]
  | LTC3335_IPEAK_CONFIGURATION_10MA, LTC3335_OUTPUT_VOLTAGE_2_8V =>
      [3832; 4025; 4213; 4398; 4580; 4762; 4944; 5127; 5312; 5500; 5691; 5885;
      6083; 6285; 6491; 6702; 6917; 7136; 7360; 7588; 7820; 8056; 8295; 8539;
      8786; 9037; 9291; 9549; 9810; 10075; 10344; 10617; 10895; 11177; 11466;
      11761; 12063; 12373]
  | LTC3335_IPEAK_CONFIGURATION_10MA, LTC3335_OUTPUT_VOLTAGE_3_0V =>
      [3603; 3812; 4011; 4203; 4389; 4572; 4752; 4932; 5112; 5294; 5478; 5666;
      5857; 6052; 6252; 6456; 6664; 6878; 7095; 7318; 7545; 7775; 8010; 8249;
      8491; 8737; 8986; 9239; 9495; 9754; 10017; 10284; 10556; 10832; 11114;
      11403; 11699; 12004]
  | LTC3335_IPEAK_CONFIGURATION_10MA, LTC3335_OUTPUT_VOLTAGE_3_3V =>
      [3312; 3533; 3741; 3937; 4126; 4308; 4486; 4662; 4837; 5013; 5191; 5371;
      5555; 5742; 5934; 6131; 6332; 6538; 6748; 6964; 7183; 7407; 7634; 7866;
      8101; 8339; 8581; 8826; 9074; 9325; 9580; 9839; 10103; 10372; 10646;
      10928; 11219; 11519]
  | LTC3335_IPEAK_CONFIGURATION_10MA, LTC3335_OUTPUT_VOLTAGE_3_6V =>
      [3058; 3283; 3493; 3690; 3879; 4060; 4237; 4411; 4584; 4757; 4932; 5109;
      5288; 5471; 5658; 5850; 6046; 6246; 6450; 6659; 6872; 7089; 7310; 7534;
      7762; 7993; 8227; 8464; 8705; 8949; 9197; 9449; 9706; 9969; 10238;
      10516; 10802; 11100]
  | LTC3335_IPEAK_CONFIGURATION_10MA, LTC3335_OUTPUT_VOLTAGE_4_5V =>
      [2148; 2424; 2678; 2913; 3132; 3338; 3534; 3723; 3905; 4084; 4261; 4438;
      4614; 4792; 4972; 5154; 5340; 5529; 5722; 5918; 6118; 6321; 6529; 6739;
      6953; 7171; 7391; 7614; 7841; 8071; 8304; 8540; 8781; 9026; 9276; 9532;
      9796; 10068]
  | LTC3335_IPEAK_CONFIGURATION_10MA, LTC3335_OUTPUT_VOLTAGE_5_0V =>
      [1588; 1914; 2209; 2478; 2725; 2953; 3167; 3369; 3562; 3748; 3930; 4109;
      4287; 4465; 4644; 4825; 5008; 5195; 5385; 5578; 5775; 5975; 6179; 6386;
      6597; 6811; 7028; 7248; 7472; 7698; 7928; 8162; 8400; 8642; 8891; 9146;
      9410; 9683]
  | LTC3335_IPEAK_CONFIGURATION_15MA, LTC3335_OUTPUT_VOLTAGE_1_8V =>
      [3046; 3189; 3325; 3457; 3587; 3717; 3850; 3986; 4126; 4272; 4425; 4583;
      4749; 4921; 5100; 5286; 5478; 5675; 5878; 6086; 6298; 6514; 6734; 6956;
      7182; 7410; 7640; 7873; 8109; 8349; 8592; 8841; 9095; 9358; 9630; 9914;
      10211; 10526]
  | LTC3335_IPEAK_CONFIGURATION_15MA, LTC3335_OUTPUT_VOLTAGE_2_5V =>
      [2510; 2635; 2754; 2869; 2981; 3093; 3207; 3323; 3442; 3567; 3696; 3832;
      3973; 4120; 4274; 4434; 4599; 4770; 4946; 5127; 5312; 5502; 5695; 5891;
      6091; 6294; 6499; 6707; 6918; 7133; 7352; 7575; 7804; 8039; 8283; 8536;
      8802; 9082]
  | LTC3335_IPEAK_CONFIGURATION_15MA, LTC3335_OUTPUT_VOLTAGE_2_8V =>
      [2346; 2455; 2561; 2666; 2772; 2879; 2988; 3100; 3216; 3337; 3462; 3592;
      3728; 3869; 4015; 4167; 4323; 4484; 4651; 4821; 4996; 5174; 5357; 5543;
      5732; 5925; 6121; 6321; 6524; 6731; 6942; 7158; 7380; 7608; 7843; 8087;
      8340; 8606]
  | LTC3335_IPEAK_CONFIGURATION_15MA, LTC3335_OUTPUT_VOLTAGE_3_0V =>
      [2187; 2304; 2416; 2525; 2632; 2740; 2849; 2960; 3074; 3192; 3315; 3441;
      3573; 3710; 3851; 3998; 4150; 4306; 4467; 4632; 4802; 4976; 5153; 5334;
      5518; 5706; 5897; 6091; 6289; 6491; 6698; 6909; 7126; 7349; 7579; 7819;
      8068; 8330]
  | LTC3335_IPEAK_CONFIGURATION_15MA, LTC3335_OUTPUT_VOLTAGE_3_3V =>
      [1888; 2037; 2173; 2299; 2418; 2533; 2645; 2756; 2869; 2983; 3101; 3222;
      3348; 3479; 3615; 3756; 3902; 4053; 4208; 4369; 4533; 4702; 4874; 5049;
      5228; 5409; 5594; 5782; 5973; 6167; 6366; 6570; 6779; 6996; 7221; 7457;
      7705; 7968]
  | LTC3335_IPEAK_CONFIGURATION_15MA, LTC3335_OUTPUT_VOLTAGE_3_6V =>
      [1567; 1753; 1918; 2065; 2199; 2323; 2441; 2555; 2668; 2780; 2895; 3013;
      3135; 3262; 3394; 3531; 3673; 3821; 3973; 4130; 4291; 4456; 4625; 4796;
      4970; 5147; 5326; 5508; 5693; 5881; 6072; 6269; 6472; 6684; 6905; 7139;
      7388; 7655]
  | LTC3335_IPEAK_CONFIGURATION_15MA, LTC3335_OUTPUT_VOLTAGE_4_5V =>
      [904; 1094; 1267; 1426; 1576; 1717; 1852; 1983; 2112; 2239; 2366; 2493;
      2622; 2752; 2885; 3021; 3159; 3300; 3444; 3590; 3740; 3892; 4046; 4204;
      4363; 4526; 4692; 4860; 5032; 5208; 5389; 5576; 5770; 5971; 6182; 6404;
      6640; 6892]
  | LTC3335_IPEAK_CONFIGURATION_15MA, LTC3335_OUTPUT_VOLTAGE_5_0V =>
      [245; 579; 861; 1099; 1302; 1477; 1631; 1769; 1896; 2017; 2133; 2249;
      2367; 2487; 2611; 2740; 2874; 3013; 3157; 3306; 3459; 3615; 3774; 3935;
      4097; 4261; 4425; 4590; 4757; 4924; 5095; 5270; 5451; 5641; 5844; 6062;
      6301; 6565]
  | LTC3335_IPEAK_CONFIGURATION_25MA, LTC3335_OUTPUT_VOLTAGE_1_8V =>
      [2264; 2228; 2213; 2216; 2236; 2272; 2321; 2383; 2456; 2539; 2631; 2731;
      2838; 2952; 3071; 3196; 3325; 3458; 3596; 3736; 3880; 4027; 4177; 4330;
      4486; 4645; 4808; 4973; 5142; 5315; 5491; 5672; 5858; 6049; 6245; 6447;
      6656; 6871]
  | LTC3335_IPEAK_CONFIGURATION_25MA, LTC3335_OUTPUT_VOLTAGE_2_5V =>
      [1958; 1938; 1931; 1936; 1953; 1981; 2018; 2065; 2121; 2185; 2257; 2336;
      2421; 2512; 2609; 2711; 2818; 2930; 3046; 3166; 3289; 3416; 3546; 3680;
      3817; 3956; 4099; 4245; 4395; 4547; 4703; 4863; 5027; 5195; 5367; 5545;
      5728; 5916]
  | LTC3335_IPEAK_CONFIGURATION_25MA, LTC3335_OUTPUT_VOLTAGE_2_8V =>
      [1648; 1689; 1727; 1765; 1802; 1842; 1885; 1933; 1985; 2043; 2107; 2178;
      2255; 2338; 2427; 2523; 2624; 2731; 2843; 2959; 3080; 3204; 3332; 3462;
      3595; 3730; 3868; 4007; 4149; 4293; 4440; 4590; 4744; 4903; 5068; 5240;
      5421; 5614]
  | LTC3335_IPEAK_CONFIGURATION_25MA, LTC3335_OUTPUT_VOLTAGE_3_0V =>
      [1498; 1559; 1612; 1660; 1705; 1750; 1795; 1843; 1895; 1951; 2013; 2080;
      2154; 2234; 2320; 2413; 2511; 2615; 2724; 2837; 2955; 3077; 3202; 3330;
      3460; 3592; 3727; 3863; 4001; 4141; 4284; 4430; 4580; 4735; 4896; 5065;
      5243; 5434]
  | LTC3335_IPEAK_CONFIGURATION_25MA, LTC3335_OUTPUT_VOLTAGE_3_3V =>
      [1359; 1418; 1471; 1519; 1566; 1612; 1659; 1708; 1761; 1817; 1879; 1946;
      2018; 2096; 2179; 2268; 2363; 2462; 2567; 2676; 2789; 2905; 3025; 3148;
      3274; 3402; 3533; 3665; 3800; 3937; 4077; 4220; 4366; 4517; 4674; 4837;
      5008; 5190]
  | LTC3335_IPEAK_CONFIGURATION_25MA, LTC3335_OUTPUT_VOLTAGE_3_6V =>
      [1267; 1307; 1347; 1388; 1430; 1475; 1524; 1575; 1631; 1691; 1755; 1823;
      1897; 1974; 2057; 2144; 2236; 2331; 2432; 2536; 2643; 2755; 2870; 2988;
      3109; 3233; 3360; 3490; 3623; 3758; 3897; 4038; 4183; 4332; 4484; 4642;
      4804; 4972]
  | LTC3335_IPEAK_CONFIGURATION_25MA, LTC3335_OUTPUT_VOLTAGE_4_5V =>
      [644; 746; 837; 920; 998; 1071; 1142; 1211; 1280; 1350; 1421; 1494;
      1570; 1649; 1731; 1817; 1906; 1998; 2095; 2194; 2297; 2402; 2511; 2622;
      2736; 2852; 2971; 3091; 3214; 3339; 3466; 3596; 3729; 3866; 4007; 4153;
      4304; 4463]
  | LTC3335_IPEAK_CONFIGURATION_25MA, LTC3335_OUTPUT_VOLTAGE_5_0V =>
      [539; 591; 649; 712; 779; 850; 923; 1000; 1079; 1159; 1242; 1326; 1411;
      1498; 1586; 1675; 1766; 1858; 1952; 2047; 2145; 2244; 2345; 2449; 2556;
      2666; 2778; 2894; 3013; 3136; 3263; 3394; 3529; 3668; 3811; 3958; 4109;
      4264]
  | LTC3335_IPEAK_CONFIGURATION_50MA, LTC3335_OUTPUT_VOLTAGE_1_8V =>
      [252; 168; 104; 60; 32; 20; 22; 36; 62; 98; 143; 196; 256; 323; 395;
      472; 554; 639; 728; 820; 915; 1012; 1113; 1216; 1322; 1430; 1541; 1656;
      1774; 1895; 2021; 2151; 2286; 2427; 2574; 2727; 2888; 3057]
  | LTC3335_IPEAK_CONFIGURATION_50MA, LTC3335_OUTPUT_VOLTAGE_2_5V =>
      [-195; -220; -236; -245; -245; -237; -222; -199; -170; -133; -90; -41;
      14; 74; 139; 208; 282; 359; 440; 525; 612; 702; 794; 889; 987; 1086;
      1189; 1293; 1400; 1511; 1624; 1742; 1863; 1990; 2123; 2262; 2409; 2565]
  | LTC3335_IPEAK_CONFIGURATION_50MA, LTC3335_OUTPUT_VOLTAGE_2_8V =>
      [-391; -375; -362; -348; -334; -317; -297; -273; -245; -211; -172; -128;
      -78; -23; 38; 103; 173; 247; 326; 407; 493; 580; 671; 764; 858; 955;
      1054; 1154; 1257; 1362; 1470; 1582; 1698; 1820; 1948; 2084; 2231; 2389]
  | LTC3335_IPEAK_CONFIGURATION_50MA, LTC3335_OUTPUT_VOLTAGE_3_0V =>
      [-510; -474; -445; -421; -398; -376; -352; -327; -298; -265; -227; -184;
      -136; -83; -25; 38; 107; 179; 256; 336; 420; 506; 595; 686; 779; 874;
      971; 1069; 1169; 1271; 1376; 1485; 1599; 1718; 1844; 1979; 2126; 2285]
  | LTC3335_IPEAK_CONFIGURATION_50MA, LTC3335_OUTPUT_VOLTAGE_3_3V =>
      [-672; -618; -574; -537; -505; -475; -446; -416; -384; -350; -311; -268;
      -221; -169; -112; -50; 16; 87; 161; 239; 321; 405; 491; 579; 670; 762;
      855; 951; 1048; 1147; 1250; 1356; 1467; 1583; 1708; 1841; 1986; 2146]
  | LTC3335_IPEAK_CONFIGURATION_50MA, LTC3335_OUTPUT_VOLTAGE_3_6V =>
      [-824; -762; -710; -665; -625; -587; -551; -515; -478; -438; -396; -350;
      -301; -248; -191; -129; -64; 5; 77; 153; 231; 312; 396; 482; 569; 659;
      750; 844; 939; 1037; 1138; 1243; 1353; 1468; 1591; 1722; 1865; 2020]
  | LTC3335_IPEAK_CONFIGURATION_50MA, LTC3335_OUTPUT_VOLTAGE_4_5V =>
      [-1329; -1232; -1145; -1066; -993; -926; -863; -802; -744; -687; -630;
      -574; -516; -458; -399; -337; -274; -209; -142; -72; 0; 74; 151; 230;
      312; 396; 483; 573; 665; 761; 860; 963; 1070; 1181; 1298; 1422; 1551;
      1689]
  | LTC3335_IPEAK_CONFIGURATION_50MA, LTC3335_OUTPUT_VOLTAGE_5_0V =>
      [-1585; -1457; -1346; -1248; -1161; -1082; -1010; -942; -878; -815;
      -754; -693; -632; -569; -506; -441; -374; -306; -236; -165; -92; -18;
      58; 135; 213; 292; 373; 456; 542; 630; 722; 818; 920; 1029; 1146; 1274;
      1415; 1570]
  | LTC3335_IPEAK_CONFIGURATION_100MA, LTC3335_OUTPUT_VOLTAGE_1_8V =>
      [549; 287; 77; -88; -212; -302; -363; -399; -414; -411; -393; -362;
      -322; -274; -218; -157; -92; -23; 50; 125; 204; 285; 369; 455; 545; 638;
      735; 834; 937; 1044; 1153; 1266; 1380; 1496; 1612; 1727; 1839; 1948]
  | LTC3335_IPEAK_CONFIGURATION_100MA, LTC3335_OUTPUT_VOLTAGE_2_5V =>
      [-470; -604; -705; -778; -827; -855; -864; -858; -839; -809; -770; -724;
      -671; -613; -550; -484; -415; -344; -270; -194; -116; -35; 47; 132; 220;
      311; 405; 502; 602; 706; 813; 923; 1037; 1153; 1271; 1391; 1512; 1632]
  | LTC3335_IPEAK_CONFIGURATION_100MA, LTC3335_OUTPUT_VOLTAGE_2_8V =>
      [-763; -831; -882; -917; -938; -946; -944; -932; -911; -882; -846; -804;
      -756; -703; -645; -584; -518; -449; -376; -300; -221; -139; -53; 35;
      126; 219; 316; 415; 517; 621; 727; 836; 946; 1057; 1170; 1282; 1395;
      1507]
  | LTC3335_IPEAK_CONFIGURATION_100MA, LTC3335_OUTPUT_VOLTAGE_3_0V =>
      [-935; -970; -995; -1010; -1016; -1013; -1003; -985; -960; -929; -893;
      -851; -803; -752; -695; -634; -570; -501; -429; -353; -274; -192; -106;
      -18; 73; 167; 264; 363; 464; 567; 672; 779; 887; 997; 1107; 1218; 1329;
      1439]
  | LTC3335_IPEAK_CONFIGURATION_100MA, LTC3335_OUTPUT_VOLTAGE_3_3V =>
      [-1163; -1170; -1171; -1165; -1152; -1134; -1111; -1082; -1048; -1010;
      -967; -920; -869; -814; -756; -693; -628; -559; -487; -412; -334; -253;
      -169; -83; 6; 98; 192; 288; 387; 487; 590; 695; 802; 910; 1020; 1132;
      1244; 1358]
  | LTC3335_IPEAK_CONFIGURATION_100MA, LTC3335_OUTPUT_VOLTAGE_3_6V =>
      [-1362; -1359; -1348; -1330; -1305; -1274; -1238; -1197; -1151; -1102;
      -1049; -993; -934; -873; -809; -742; -674; -603; -531; -456; -379; -300;
      -219; -136; -51; 36; 126; 219; 314; 412; 512; 615; 721; 830; 943; 1058;
      1176; 1297]
  | LTC3335_IPEAK_CONFIGURATION_100MA, LTC3335_OUTPUT_VOLTAGE_4_5V =>
      [-1905; -1859; -1809; -1753; -1695; -1633; -1569; -1503; -1436; -1367;
      -1297; -1226; -1155; -1083; -1010; -937; -863; -787; -711; -634; -555;
      -474; -392; -308; -222; -133; -42; 51; 147; 245; 346; 449; 555; 662;
      771; 882; 994; 1106]
  | LTC3335_IPEAK_CONFIGURATION_100MA, LTC3335_OUTPUT_VOLTAGE_5_0V =>
      [-2470; -2317; -2180; -2057; -1946; -1845; -1752; -1665; -1584; -1507;
      -1433; -1361; -1290; -1220; -1149; -1077; -1004; -930; -853; -775; -694;
      -612; -526; -439; -349; -258; -164; -69; 28; 126; 225; 326; 427; 529;
      631; 734; 837; 941]
  | LTC3335_IPEAK_CONFIGURATION_150MA, LTC3335_OUTPUT_VOLTAGE_1_8V =>
      [476; 251; 58; -106; -244; -357; -449; -520; -573; -611; -633; -643;
      -641; -629; -609; -580; -544; -503; -456; -405; -351; -293; -232; -169;
      -104; -37; 32; 102; 174; 247; 322; 399; 478; 558; 641; 727; 816; 907]
  | LTC3335_IPEAK_CONFIGURATION_150MA, LTC3335_OUTPUT_VOLTAGE_2_5V =>
      [-306; -464; -596; -704; -793; -862; -915; -953; -978; -991; -994; -988;
      -973; -951; -922; -888; -848; -804; -756; -704; -649; -590; -529; -465;
      -399; -330; -260; -187; -113; -38; 39; 116; 194; 272; 350; 427; 502;
      575]
  | LTC3335_IPEAK_CONFIGURATION_150MA, LTC3335_OUTPUT_VOLTAGE_2_8V =>
      [-492; -607; -707; -792; -864; -924; -971; -1006; -1031; -1045; -1051;
      -1047; -1036; -1017; -991; -959; -921; -878; -831; -780; -725; -666;
      -605; -542; -476; -409; -340; -269; -197; -123; -48; 28; 105; 185; 266;
      349; 436; 525]
  | LTC3335_IPEAK_CONFIGURATION_150MA, LTC3335_OUTPUT_VOLTAGE_3_0V =>
      [-625; -720; -803; -875; -935; -985; -1024; -1054; -1074; -1085; -1088;
      -1083; -1071; -1051; -1026; -994; -957; -916; -869; -819; -765; -709;
      -649; -587; -522; -456; -387; -318; -246; -173; -98; -22; 57; 137; 221;
      307; 396; 490]
  | LTC3335_IPEAK_CONFIGURATION_150MA, LTC3335_OUTPUT_VOLTAGE_3_3V =>
      [-845; -922; -986; -1038; -1081; -1113; -1136; -1152; -1159; -1159;
      -1153; -1140; -1122; -1099; -1071; -1038; -1001; -960; -916; -868; -817;
      -763; -707; -647; -585; -520; -453; -384; -312; -239; -162; -84; -4; 78;
      163; 249; 338; 428]
  | LTC3335_IPEAK_CONFIGURATION_150MA, LTC3335_OUTPUT_VOLTAGE_3_6V =>
      [-1068; -1133; -1183; -1219; -1244; -1258; -1264; -1263; -1255; -1242;
      -1224; -1201; -1175; -1146; -1114; -1079; -1041; -1001; -957; -912;
      -863; -812; -758; -701; -641; -578; -511; -442; -370; -295; -217; -137;
      -55; 28; 111; 194; 275; 355]
  | LTC3335_IPEAK_CONFIGURATION_150MA, LTC3335_OUTPUT_VOLTAGE_4_5V =>
      [-1501; -1502; -1501; -1498; -1492; -1483; -1472; -1458; -1440; -1420;
      -1397; -1370; -1340; -1307; -1271; -1232; -1190; -1146; -1098; -1048;
      -995; -940; -883; -823; -762; -698; -633; -566; -498; -428; -357; -284;
      -210; -136; -60; 18; 96; 175]
  | LTC3335_IPEAK_CONFIGURATION_150MA, LTC3335_OUTPUT_VOLTAGE_5_0V =>
      [-1790; -1791; -1784; -1769; -1747; -1720; -1688; -1653; -1615; -1574;
      -1531; -1487; -1441; -1395; -1349; -1301; -1254; -1205; -1157; -1107;
      -1057; -1007; -955; -901; -846; -790; -731; -670; -605; -538; -468;
      -394; -316; -234; -148; -57; 38; 138]
  | LTC3335_IPEAK_CONFIGURATION_250MA, LTC3335_OUTPUT_VOLTAGE_1_8V =>
      [1007; 754; 530; 332; 159; 10; -117; -224; -311; -381; -434; -473; -498;
      -511; -513; -505; -489; -466; -435; -400; -360; -316; -269; -219; -168;
      -115; -61; -6; 50; 107; 165; 224; 285; 348; 414; 484; 559; 639]
  | LTC3335_IPEAK_CONFIGURATION_250MA, LTC3335_OUTPUT_VOLTAGE_2_5V =>
      [308; 39; -184; -366; -514; -632; -724; -793; -844; -880; -901; -912;
      -914; -908; -897; -879; -858; -833; -804; -773; -739; -702; -662; -619;
      -574; -525; -473; -419; -361; -300; -236; -169; -101; -32; 37; 105; 171;
      233]
  | LTC3335_IPEAK_CONFIGURATION_250MA, LTC3335_OUTPUT_VOLTAGE_2_8V =>
      [90; -128; -314; -473; -607; -717; -807; -879; -933; -974; -1001; -1017;
      -1023; -1020; -1010; -993; -971; -943; -912; -877; -840; -800; -757;
      -712; -666; -618; -567; -515; -461; -404; -345; -283; -218; -149; -77;
      1; 83; 171]
  | LTC3335_IPEAK_CONFIGURATION_250MA, LTC3335_OUTPUT_VOLTAGE_3_0V =>
      [-64; -247; -408; -548; -668; -769; -853; -922; -975; -1016; -1044;
      -1062; -1069; -1068; -1059; -1043; -1021; -994; -963; -928; -889; -848;
      -805; -760; -714; -665; -615; -564; -511; -456; -398; -337; -273; -203;
      -129; -48; 41; 139]
  | LTC3335_IPEAK_CONFIGURATION_250MA, LTC3335_OUTPUT_VOLTAGE_3_3V =>
      [-301; -443; -570; -681; -778; -860; -930; -987; -1032; -1067; -1091;
      -1106; -1113; -1112; -1104; -1089; -1069; -1044; -1014; -981; -944;
      -905; -863; -818; -772; -724; -673; -621; -567; -511; -452; -390; -324;
      -254; -179; -97; -7; 91]
  | LTC3335_IPEAK_CONFIGURATION_250MA, LTC3335_OUTPUT_VOLTAGE_3_6V =>
      [-518; -637; -742; -831; -907; -971; -1023; -1065; -1098; -1122; -1138;
      -1146; -1148; -1144; -1135; -1121; -1102; -1078; -1051; -1021; -986;
      -949; -909; -866; -820; -771; -720; -666; -610; -550; -488; -423; -354;
      -283; -208; -130; -48; 38]
  | LTC3335_IPEAK_CONFIGURATION_250MA, LTC3335_OUTPUT_VOLTAGE_4_5V =>
      [-874; -988; -1082; -1160; -1223; -1272; -1309; -1336; -1352; -1361;
      -1361; -1355; -1343; -1326; -1305; -1279; -1251; -1219; -1184; -1146;
      -1107; -1065; -1021; -976; -928; -879; -827; -774; -718; -660; -600;
      -537; -472; -405; -334; -261; -185; -106]
  | LTC3335_IPEAK_CONFIGURATION_250MA, LTC3335_OUTPUT_VOLTAGE_5_0V =>
      [-1252; -1277; -1299; -1319; -1335; -1349; -1358; -1364; -1366; -1365;
      -1359; -1350; -1337; -1321; -1302; -1279; -1254; -1227; -1197; -1165;
      -1131; -1095; -1058; -1019; -978; -936; -892; -846; -798; -747; -693;
      -636; -574; -507; -434; -354; -265; -167]
  end.

Section Target.

Variable tgt : int_model.

Definition add (a b : cval) : C cval := lift (arith tgt Z.add a b).
Definition sub (a b : cval) : C cval := lift (arith tgt Z.sub a b).
Definition mul (a b : cval) : C cval := lift (arith tgt Z.mul a b).
Definition div (a b : cval) : C cval := lift (divide tgt a b).
Definition le (a b : cval) : bool := compare tgt Z.leb a b.
Definition ge (a b : cval) : bool := compare tgt Z.geb a b.

(** [(LTC3335_VBAT_MIN + LTC3335_VBAT_STEP * (LTC3335_VBAT_NUM - 1))] *)
Definition LTC3335_VBAT_MAX : C cval :=
  n <- sub (lit tgt LTC3335_VBAT_NUM) (lit tgt 1) ;;
  s <- mul (lit tgt LTC3335_VBAT_STEP) n ;;
  add (lit tgt LTC3335_VBAT_MIN) s.

(** [((uint8_t)((vbat - LTC3335_VBAT_MIN) / LTC3335_VBAT_STEP))] *)
Definition LTC3335_VBAT_TO_TABLE_INDEX (vbat : cval) : C cval :=
  d <- sub vbat (lit tgt LTC3335_VBAT_MIN) ;;
  q <- div d (lit tgt LTC3335_VBAT_STEP) ;;
  ret (cast uint8_t q).

(** The product of the return expression,
    [(int32_t) (factor2 - factor1) *
     (vbat - (LTC3335_VBAT_MIN + index * LTC3335_VBAT_STEP))]. *)
Definition interpolation_product (factor1 factor2 vbat index : cval)
  : C cval :=
  delta <- sub factor2 factor1 ;;
  off <- mul index (lit tgt LTC3335_VBAT_STEP) ;;
  node <- add (lit tgt LTC3335_VBAT_MIN) off ;;
  rest <- sub vbat node ;;
  mul (cast int32_t delta) rest.

(** [int16_t LTC3335_Get_Software_Correction_Factor(uint16_t vbat)].
    The argument is converted to the parameter type on entry and the value
    of the [return] expression to the return type on exit. *)
Definition LTC3335_Get_Software_Correction_Factor (arg : Z) : C Z :=
  let vbat := CVal uint16_t (wrap uint16_t arg) in
  if le vbat (lit tgt LTC3335_VBAT_MIN) then
    i <- LTC3335_VBAT_TO_TABLE_INDEX (lit tgt LTC3335_VBAT_MIN) ;;
    w <- pgm_read_word i ;;
    ret (val (cast int16_t w))
  else
    vmax <- LTC3335_VBAT_MAX ;;
    if ge vbat vmax then
      i <- LTC3335_VBAT_TO_TABLE_INDEX vmax ;;
      w <- pgm_read_word i ;;
      ret (val (cast int16_t w))
    else
      i <- LTC3335_VBAT_TO_TABLE_INDEX vbat ;;
      let index := cast uint8_t i in
      w1 <- pgm_read_word index ;;
      let factor1 := cast int16_t w1 in
      i1 <- add index (lit tgt 1) ;;
      w2 <- pgm_read_word i1 ;;
      let factor2 := cast int16_t w2 in
      prod <- interpolation_product factor1 factor2 vbat index ;;
      half <- div (lit tgt LTC3335_VBAT_STEP) (lit tgt 2) ;;
      num <- add prod half ;;
      q <- div num (lit tgt LTC3335_VBAT_STEP) ;;
      s <- add factor1 q ;;
      ret (val (cast int16_t s)).

End Target.

(** The memory image of a build: the selected table in program memory,
    any contents in data memory. *)
Definition image (ipeak : ipeak_configuration) (vout : output_voltage)
    (data : list Z) : memory :=
  Memory (LTC3335_Software_Correction_Table ipeak vout) data.

(** Entry [k] of a table, for stating results. *)
Definition entry (tbl : list Z) (k : Z) : Z := nth (Z.to_nat k) tbl 0.

(** [adjacent P tbl]: every two neighbouring entries satisfy [P]. *)
Fixpoint adjacent (P : Z -> Z -> bool) (tbl : list Z) : bool :=
  match tbl with
  | a :: (b :: _) as rest => P a b && adjacent P rest
  | _ => true
  end.

Definition nondecreasing (tbl : list Z) : bool := adjacent Z.leb tbl.

(** A table the function can run on: [LTC3335_VBAT_NUM] entries of type
    [int16_t], with every difference of neighbours inside [int]. *)
Definition table_ok (tgt : int_model) (tbl : list Z) : bool :=
  (Z.of_nat (length tbl) =? LTC3335_VBAT_NUM)
  && forallb (representable int16_t) tbl
  && adjacent (fun a b => representable (c_int tgt) (b - a)) tbl.

(** A computation that reads nothing but program memory and writes
    nothing: its outcome is a function of program memory, and the memory
    it returns is the one it was given. *)
Definition constant {A : Type} (c : C A) : Prop :=
  forall p : list Z, exists o : option A,
    forall d : list Z,
      c (Memory p d) = option_map (fun a => (a, Memory p d)) o.

(** ** The closed form the specification gives *)

(** [index = (vbat - VBAT_MIN) / VBAT_STEP], by truncating division. *)
Definition spec_index (vbat : Z) : Z :=
  (vbat - LTC3335_VBAT_MIN) ÷ LTC3335_VBAT_STEP.

(** [lo + ((hi - lo) * (vbat - (VBAT_MIN + index * VBAT_STEP)) + STEP / 2)
    / STEP], in unbounded integers, the division truncating toward zero. *)
Definition spec_interpolation (tbl : list Z) (vbat : Z) : Z :=
  let index := spec_index vbat in
  let lo := entry tbl index in
  let hi := entry tbl (index + 1) in
  lo + ((hi - lo)
        * (vbat - (LTC3335_VBAT_MIN + index * LTC3335_VBAT_STEP))
        + LTC3335_VBAT_STEP ÷ 2) ÷ LTC3335_VBAT_STEP.

(** Clamp below 1800 and above 5500, interpolate in between. *)
Definition spec_correction_factor (tbl : list Z) (vbat : Z) : Z :=
  if vbat <=? 1800 then entry tbl 0
  else if 5500 <=? vbat then entry tbl 37
  else spec_interpolation tbl vbat.

(** ** Further notions for stating properties *)

(** Every entry of the table lies in [lo .. hi]. *)
Definition within (lo hi : Z) (tbl : list Z) : bool :=
  forallb (fun e => (lo <=? e) && (e <=? hi)) tbl.

(** The peak current a configuration symbol stands for, in mA. *)
Definition ipeak_mA (ipeak : ipeak_configuration) : Z :=
  match ipeak with
  | LTC3335_IPEAK_CONFIGURATION_5MA => 5
  | LTC3335_IPEAK_CONFIGURATION_10MA => 10
  | LTC3335_IPEAK_CONFIGURATION_15MA => 15
  | LTC3335_IPEAK_CONFIGURATION_25MA => 25
  | LTC3335_IPEAK_CONFIGURATION_50MA => 50
  | LTC3335_IPEAK_CONFIGURATION_100MA => 100
  | LTC3335_IPEAK_CONFIGURATION_150MA => 150
  | LTC3335_IPEAK_CONFIGURATION_250MA => 250
  end.

(** ** The integer layer and the function on concrete inputs *)

(** [uint16_t - int] is unsigned and wraps where [int] has 16 bits, and is
    signed where [int] has 32 bits. *)
Example sub_uint16_int_16 :
  arith Int16 Z.sub (CVal uint16_t 0) (lit Int16 1)
  = Some (CVal uint16_t 65535).
Proof. reflexivity. Qed.

Example sub_uint16_int_32 :
  arith Int32 Z.sub (CVal uint16_t 0) (lit Int32 1)
  = Some (CVal int32_t (-1)).
Proof. reflexivity. Qed.

(** A difference of two [int16_t] values can leave a 16-bit [int]. *)
Example sub_int16_overflow :
  arith Int16 Z.sub (CVal int16_t 32767) (CVal int16_t (-32768)) = None
  /\ arith Int32 Z.sub (CVal int16_t 32767) (CVal int16_t (-32768))
     = Some (CVal int32_t 65535).
Proof. split; reflexivity. Qed.

Example divide_truncates :
  divide Int16 (CVal int32_t (-212)) (lit Int16 100)
  = Some (CVal int32_t (-2)).
Proof. reflexivity. Qed.

(** The function has no value on a table that is too short, or whose
    steps overflow [int]. *)
Example short_table_fails :
  LTC3335_Get_Software_Correction_Factor Int16 1850 (Memory [549] []) = None.
Proof. reflexivity. Qed.

Example steep_table_fails :
  LTC3335_Get_Software_Correction_Factor Int16 1850
    (Memory [-32768; 32767] []) = None.
Proof. reflexivity. Qed.

(** A negative argument arrives as a large [uint16_t] and is clamped from
    above. *)
Example negative_argument :
  LTC3335_Get_Software_Correction_Factor Int16 (-1)
    (image LTC3335_IPEAK_CONFIGURATION_10MA LTC3335_OUTPUT_VOLTAGE_3_3V [])
  = Some (11519,
          image LTC3335_IPEAK_CONFIGURATION_10MA LTC3335_OUTPUT_VOLTAGE_3_3V
            []).
Proof. reflexivity. Qed.

(** On a falling segment, off a tie: 549 + (-262 * 1 + 50) / 100 = 547. *)
Example falling_segment :
  LTC3335_Get_Software_Correction_Factor Int16 1801
    (image LTC3335_IPEAK_CONFIGURATION_100MA LTC3335_OUTPUT_VOLTAGE_1_8V [])
  = Some (547,
          image LTC3335_IPEAK_CONFIGURATION_100MA LTC3335_OUTPUT_VOLTAGE_1_8V
            []).
Proof. reflexivity. Qed.

(** ** Facts about the integer layer *)

Lemma representable_iff (t : ctype) (z : Z) :
  representable t z = true <-> min_of t <= z <= max_of t.
Proof.
  unfold representable.
  rewrite andb_true_iff, !Z.leb_le.
  reflexivity.
Qed.

Lemma wrap_fits (t : ctype) (z : Z) :
  0 < bits t -> representable t z = true -> wrap t z = z.
Proof.
  intros Hb Hz.
  apply representable_iff in Hz.
  unfold wrap, min_of, max_of in *.
  assert (Hp : 2 ^ bits t = 2 * 2 ^ (bits t - 1)).
  { rewrite <- Z.pow_succ_r by lia. f_equal. lia. }
  assert (0 < 2 ^ (bits t - 1)) by (apply Z.pow_pos_nonneg; lia).
  destruct (is_signed t).
  - rewrite Z.mod_small by lia. lia.
  - apply Z.mod_small. lia.
Qed.

Lemma result_fits (t : ctype) (z : Z) :
  0 < bits t -> representable t z = true -> result t z = Some (CVal t z).
Proof.
  intros Hb Hz.
  unfold result.
  rewrite Hz, (wrap_fits t z Hb Hz).
  destruct (is_signed t); reflexivity.
Qed.

(** An operation whose operands and mathematical result all fit the common
    type yields that result. *)
Lemma arith_fits (tgt : int_model) (f : Z -> Z -> Z) (a b : cval) (t : ctype) :
  usual tgt (ty a) (ty b) = t ->
  0 < bits t ->
  representable t (val a) = true ->
  representable t (val b) = true ->
  representable t (f (val a) (val b)) = true ->
  arith tgt f a b = Some (CVal t (f (val a) (val b))).
Proof.
  intros Ht Hb Ha Hv Hr.
  unfold arith.
  rewrite Ht, (wrap_fits t _ Hb Ha), (wrap_fits t _ Hb Hv).
  apply result_fits; assumption.
Qed.

Lemma divide_fits (tgt : int_model) (a b : cval) (t : ctype) :
  usual tgt (ty a) (ty b) = t ->
  0 < bits t ->
  representable t (val a) = true ->
  representable t (val b) = true ->
  val b <> 0 ->
  representable t (val a ÷ val b) = true ->
  divide tgt a b = Some (CVal t (val a ÷ val b)).
Proof.
  intros Ht Hb Ha Hv Hnz Hr.
  unfold divide.
  rewrite Ht, (wrap_fits t _ Hb Ha), (wrap_fits t _ Hb Hv).
  destruct (Z.eqb_spec (val b) 0) as [E | _]; [contradiction |].
  apply result_fits; assumption.
Qed.

Lemma compare_fits (tgt : int_model) (f : Z -> Z -> bool) (a b : cval)
    (t : ctype) :
  usual tgt (ty a) (ty b) = t ->
  0 < bits t ->
  representable t (val a) = true ->
  representable t (val b) = true ->
  compare tgt f a b = f (val a) (val b).
Proof.
  intros Ht Hb Ha Hv.
  unfold compare.
  rewrite Ht, (wrap_fits t _ Hb Ha), (wrap_fits t _ Hb Hv).
  reflexivity.
Qed.

Lemma fits_uint8 (z : Z) : 0 <= z <= 255 -> representable uint8_t z = true.
Proof. intros H. apply representable_iff. exact H. Qed.

Lemma fits_uint16 (z : Z) : 0 <= z <= 65535 -> representable uint16_t z = true.
Proof. intros H. apply representable_iff. exact H. Qed.

Lemma fits_int16 (z : Z) :
  -32768 <= z <= 32767 -> representable int16_t z = true.
Proof. intros H. apply representable_iff. exact H. Qed.

Lemma fits_int32 (z : Z) :
  -2147483648 <= z <= 2147483647 -> representable int32_t z = true.
Proof. intros H. apply representable_iff. exact H. Qed.

(** Reading a stored [int16_t] as a word and converting it back gives the
    stored value. *)
Lemma wrap_int16_word (z : Z) :
  -32768 <= z <= 32767 -> wrap int16_t (wrap uint16_t z) = z.
Proof.
  intros H.
  unfold wrap, int16_t, uint16_t; cbn [is_signed bits].
  change (2 ^ 16) with 65536. change (2 ^ (16 - 1)) with 32768.
  rewrite Z.add_mod_idemp_l by lia.
  rewrite Z.mod_small; lia.
Qed.

(** ** Arithmetic of the rounding expression *)

(** [(d * r + 50) / 100] with C's truncating division stays between [0] and
    [d], whatever the sign of [d], for a remainder [r] in [0 .. 99]. *)
Lemma round_between (d r : Z) :
  0 <= r <= 99 ->
  Z.min 0 d <= (d * r + 50) ÷ 100 <= Z.max 0 d.
Proof.
  intros Hr.
  pose proof (Z.quot_rem' (d * r + 50) 100) as E.
  destruct (Z_lt_le_dec (d * r + 50) 0) as [Hneg | Hpos].
  - pose proof (Z.rem_bound_pos_neg (d * r + 50) 100 ltac:(lia) ltac:(lia)).
    nia.
  - pose proof (Z.rem_bound_pos (d * r + 50) 100 Hpos ltac:(lia)).
    nia.
Qed.

Lemma round_monotone (d r1 r2 : Z) :
  0 <= d -> 0 <= r1 <= r2 ->
  (d * r1 + 50) ÷ 100 <= (d * r2 + 50) ÷ 100.
Proof.
  intros Hd Hr.
  apply Z.quot_le_mono; nia.
Qed.

(** The product of the interpolation is far inside the 32-bit range. *)
Lemma product_bound (d r : Z) :
  -65535 <= d <= 65535 -> 0 <= r <= 99 ->
  -6487965 <= d * r <= 6487965.
Proof. intros Hd Hr. nia. Qed.

(** ** Running the function *)

Ltac fits :=
  first [ reflexivity | idtac ];
  first [ apply fits_uint8 | apply fits_uint16 | apply fits_int16
        | apply fits_int32 ];
  cbv beta delta [lit]; cbn [val ty]; lia.

Lemma bind_assoc {A B D : Type} (c : C A) (k : A -> C B) (h : B -> C D)
    (m : memory) :
  bind (bind c k) h m = bind c (fun a => bind (k a) h) m.
Proof. unfold bind. destruct (c m) as [[a m'] |]; reflexivity. Qed.

Lemma bind_lift {A B : Type} (a : A) (k : A -> C B) (m : memory) :
  bind (lift (Some a)) k m = k a m.
Proof. reflexivity. Qed.

Lemma bind_ret {A B : Type} (a : A) (k : A -> C B) (m : memory) :
  bind (ret a) k m = k a m.
Proof. reflexivity. Qed.

(** One step of symbolic execution: the operation at the head of the
    computation is replaced by its value, once its operands and result are
    shown to fit the type it is computed in. *)
Ltac c_step :=
  rewrite ?bind_assoc;
  lazymatch goal with
  | |- bind (lift (arith ?tgt ?f ?a ?b)) _ _ = _ =>
      let t := eval lazy in (usual tgt (ty a) (ty b)) in
      rewrite (arith_fits tgt f a b t eq_refl eq_refl) by fits;
      rewrite bind_lift
  | |- lift (arith ?tgt ?f ?a ?b) _ = _ =>
      let t := eval lazy in (usual tgt (ty a) (ty b)) in
      rewrite (arith_fits tgt f a b t eq_refl eq_refl) by fits
  | |- bind (lift (divide ?tgt ?a ?b)) _ _ = _ =>
      let t := eval lazy in (usual tgt (ty a) (ty b)) in
      rewrite (divide_fits tgt a b t eq_refl eq_refl)
        by (fits || (cbv beta delta [lit]; cbn [val]; lia));
      rewrite bind_lift
  | |- bind (ret _) _ _ = _ =>
      rewrite bind_ret
  | |- (if compare ?tgt ?f ?a ?b then _ else _) _ = _ =>
      let t := eval lazy in (usual tgt (ty a) (ty b)) in
      rewrite (compare_fits tgt f a b t eq_refl eq_refl) by fits
  end;
  cbv beta delta [cast lit]; cbn [val ty];
  rewrite ?wrap_fits by first [reflexivity | fits].

Lemma pgm_read_word_run (m : memory) (i : cval) (w : Z) :
  0 <= val i ->
  nth_error (progmem m) (Z.to_nat (val i)) = Some w ->
  pgm_read_word i m = Some (CVal uint16_t (wrap uint16_t w), m).
Proof.
  intros Hi Hw.
  unfold pgm_read_word.
  destruct (Z.ltb_spec (val i) 0) as [Hlt | _]; [lia |].
  rewrite Hw. reflexivity.
Qed.

Lemma bind_pgm_read_word {B : Type} (m : memory) (i : cval) (w : Z)
    (k : cval -> C B) :
  0 <= val i ->
  nth_error (progmem m) (Z.to_nat (val i)) = Some w ->
  bind (pgm_read_word i) k m = k (CVal uint16_t (wrap uint16_t w)) m.
Proof.
  intros Hi Hw.
  unfold bind.
  rewrite (pgm_read_word_run m i w Hi Hw).
  reflexivity.
Qed.

Lemma interpolation_product_run (tgt : int_model) (m : memory)
    (lo hi vbat index : Z) :
  -32768 <= lo <= 32767 ->
  -32768 <= hi <= 32767 ->
  representable (c_int tgt) (hi - lo) = true ->
  0 <= index <= 36 ->
  0 <= vbat - (1800 + index * 100) <= 99 ->
  interpolation_product tgt (CVal int16_t lo) (CVal int16_t hi)
    (CVal uint16_t vbat) (CVal uint8_t index) m =
  Some (CVal int32_t ((hi - lo) * (vbat - (1800 + index * 100))), m).
Proof.
  intros Rlo Rhi Rd Hi Hr.
  apply representable_iff in Rd.
  pose proof (product_bound (hi - lo) _ ltac:(lia) Hr) as Hp.
  unfold interpolation_product, add, sub, mul,
    LTC3335_VBAT_MIN, LTC3335_VBAT_STEP.
  destruct tgt;
    [ assert (Rd' : -32768 <= hi - lo <= 32767) by exact Rd | clear Rd ].
  all: do 5 c_step.
  all: reflexivity.
Qed.

Lemma bind_interpolation_product {B : Type} (tgt : int_model) (m : memory)
    (lo hi vbat index : Z) (k : cval -> C B) :
  -32768 <= lo <= 32767 ->
  -32768 <= hi <= 32767 ->
  representable (c_int tgt) (hi - lo) = true ->
  0 <= index <= 36 ->
  0 <= vbat - (1800 + index * 100) <= 99 ->
  bind (interpolation_product tgt (CVal int16_t lo) (CVal int16_t hi)
          (CVal uint16_t vbat) (CVal uint8_t index)) k m =
  k (CVal int32_t ((hi - lo) * (vbat - (1800 + index * 100)))) m.
Proof.
  intros Rlo Rhi Rd Hi Hr.
  unfold bind.
  rewrite interpolation_product_run by assumption.
  reflexivity.
Qed.

Lemma interpolate_run (tgt : int_model) (m : memory) (arg lo hi : Z) :
  1800 < arg < 5500 ->
  nth_error (progmem m) (Z.to_nat ((arg - 1800) / 100)) = Some lo ->
  nth_error (progmem m) (Z.to_nat ((arg - 1800) / 100 + 1)) = Some hi ->
  -32768 <= lo <= 32767 ->
  -32768 <= hi <= 32767 ->
  representable (c_int tgt) (hi - lo) = true ->
  LTC3335_Get_Software_Correction_Factor tgt arg m =
  Some (lo + ((hi - lo) * (arg - (1800 + (arg - 1800) / 100 * 100)) + 50) ÷ 100,
        m).
Proof.
  intros Harg Hlo Hhi Rlo Rhi Rd.
  assert (Hq : (arg - 1800) ÷ 100 = (arg - 1800) / 100)
    by (apply Z.quot_div_nonneg; lia).
  pose proof (Z.mod_pos_bound (arg - 1800) 100 ltac:(lia)) as Hm.
  pose proof (Z.div_mod (arg - 1800) 100 ltac:(lia)) as Hdm.
  assert (Hi : 0 <= (arg - 1800) / 100 <= 36) by lia.
  assert (Hr : 0 <= arg - (1800 + (arg - 1800) / 100 * 100) <= 99) by lia.
  pose proof (round_between (hi - lo) _ Hr) as Hb.
  pose proof (product_bound (hi - lo) _ ltac:(lia) Hr) as Hp.
  unfold LTC3335_Get_Software_Correction_Factor, LTC3335_VBAT_TO_TABLE_INDEX,
    LTC3335_VBAT_MAX, add, sub, mul, div, le, ge,
    LTC3335_VBAT_MIN, LTC3335_VBAT_STEP, LTC3335_VBAT_NUM.
  rewrite (wrap_fits uint16_t arg) by (reflexivity || fits).
  destruct tgt.
  all: c_step; rewrite (proj2 (Z.leb_gt _ _)) by lia.
  all: do 4 c_step; rewrite Z.geb_leb, (proj2 (Z.leb_gt _ _)) by lia.
  all: do 3 c_step; rewrite Hq.
  all: rewrite (bind_pgm_read_word m _ lo) by (cbn [val]; (lia || assumption)).
  all: c_step.
  all: rewrite (bind_pgm_read_word m _ hi) by (cbn [val]; (lia || assumption)).
  all: cbv beta delta [cast lit]; cbn [val ty].
  all: rewrite !wrap_int16_word by assumption.
  all: rewrite bind_interpolation_product by assumption.
  all: c_step; change (100 ÷ 2) with 50.
  all: do 3 c_step.
  all: reflexivity.
Qed.

Lemma clamp_low_run (tgt : int_model) (m : memory) (arg w : Z) :
  0 <= arg <= 1800 ->
  nth_error (progmem m) 0 = Some w ->
  -32768 <= w <= 32767 ->
  LTC3335_Get_Software_Correction_Factor tgt arg m = Some (w, m).
Proof.
  intros Harg Hw Rw.
  unfold LTC3335_Get_Software_Correction_Factor, LTC3335_VBAT_TO_TABLE_INDEX,
    add, sub, mul, div, le, ge,
    LTC3335_VBAT_MIN, LTC3335_VBAT_STEP, LTC3335_VBAT_NUM.
  rewrite (wrap_fits uint16_t arg) by (reflexivity || fits).
  destruct tgt.
  all: c_step; rewrite (proj2 (Z.leb_le _ _)) by lia.
  all: do 3 c_step.
  all: rewrite (bind_pgm_read_word m _ w)
    by (cbn [val]; first [apply Z.leb_le; reflexivity | exact Hw]).
  all: cbv beta delta [cast lit]; cbn [val ty].
  all: rewrite wrap_int16_word by assumption.
  all: reflexivity.
Qed.

Lemma clamp_high_run (tgt : int_model) (m : memory) (arg w : Z) :
  5500 <= arg <= 65535 ->
  nth_error (progmem m) 37 = Some w ->
  -32768 <= w <= 32767 ->
  LTC3335_Get_Software_Correction_Factor tgt arg m = Some (w, m).
Proof.
  intros Harg Hw Rw.
  unfold LTC3335_Get_Software_Correction_Factor, LTC3335_VBAT_TO_TABLE_INDEX,
    LTC3335_VBAT_MAX, add, sub, mul, div, le, ge,
    LTC3335_VBAT_MIN, LTC3335_VBAT_STEP, LTC3335_VBAT_NUM.
  rewrite (wrap_fits uint16_t arg) by (reflexivity || fits).
  destruct tgt.
  all: c_step; rewrite (proj2 (Z.leb_gt _ _)) by lia.
  all: do 4 c_step; rewrite Z.geb_leb, (proj2 (Z.leb_le _ _)) by lia.
  all: do 3 c_step.
  all: rewrite (bind_pgm_read_word m _ w)
    by (cbn [val]; first [apply Z.leb_le; reflexivity | exact Hw]).
  all: cbv beta delta [cast lit]; cbn [val ty].
  all: rewrite wrap_int16_word by assumption.
  all: reflexivity.
Qed.

(** ** Facts about tables *)

Lemma adjacent_nth (P : Z -> Z -> bool) (tbl : list Z) (n : nat) :
  adjacent P tbl = true ->
  (S n < length tbl)%nat ->
  P (nth n tbl 0) (nth (S n) tbl 0) = true.
Proof.
  revert n.
  induction tbl as [| a rest IH]; intros n Hadj Hlen; [cbn in Hlen; lia |].
  destruct rest as [| b rest']; [cbn in Hlen; lia |].
  cbn [adjacent] in Hadj.
  apply andb_true_iff in Hadj as [Hab Hrest].
  destruct n as [| n'].
  - exact Hab.
  - change (P (nth n' (b :: rest') 0) (nth (S n') (b :: rest') 0) = true).
    apply IH; [exact Hrest | cbn [length] in *; lia].
Qed.

Section TableFacts.

Variable tgt : int_model.
Variable tbl : list Z.
Hypothesis Hok : table_ok tgt tbl = true.

Lemma table_ok_length : length tbl = 38%nat.
Proof.
  pose proof Hok as H.
  unfold table_ok in H.
  apply andb_true_iff in H as [H _].
  apply andb_true_iff in H as [H _].
  apply Z.eqb_eq in H. unfold LTC3335_VBAT_NUM in H. lia.
Qed.

Lemma table_ok_read (k : Z) :
  0 <= k <= 37 -> nth_error tbl (Z.to_nat k) = Some (entry tbl k).
Proof.
  intros Hk.
  apply nth_error_nth'.
  rewrite table_ok_length. lia.
Qed.

Lemma table_ok_entry (k : Z) :
  0 <= k <= 37 -> -32768 <= entry tbl k <= 32767.
Proof.
  intros Hk.
  pose proof Hok as H.
  unfold table_ok in H.
  apply andb_true_iff in H as [H _].
  apply andb_true_iff in H as [_ H].
  rewrite forallb_forall in H.
  apply (representable_iff int16_t), H, nth_In.
  rewrite table_ok_length. lia.
Qed.

Lemma table_ok_step (k : Z) :
  0 <= k <= 36 ->
  representable (c_int tgt) (entry tbl (k + 1) - entry tbl k) = true.
Proof.
  intros Hk.
  pose proof Hok as H.
  unfold table_ok in H.
  apply andb_true_iff in H as [_ H].
  unfold entry.
  replace (Z.to_nat (k + 1)) with (S (Z.to_nat k)) by lia.
  apply (adjacent_nth _ _ _ H).
  rewrite table_ok_length. lia.
Qed.

End TableFacts.

Lemma nondecreasing_step (tbl : list Z) (k : Z) :
  nondecreasing tbl = true ->
  0 <= k -> (Z.to_nat k + 1 < length tbl)%nat ->
  entry tbl k <= entry tbl (k + 1).
Proof.
  intros Hnd Hk Hlen.
  unfold entry.
  replace (Z.to_nat (k + 1)) with (S (Z.to_nat k)) by lia.
  apply Z.leb_le, (adjacent_nth _ _ _ Hnd). lia.
Qed.

Lemma nondecreasing_entries (tbl : list Z) (j k : Z) :
  nondecreasing tbl = true ->
  0 <= j <= k -> (Z.to_nat k < length tbl)%nat ->
  entry tbl j <= entry tbl k.
Proof.
  intros Hnd [Hj Hjk] Hlen.
  revert Hlen.
  pattern k.
  apply (Zlt_lower_bound_ind _ j); [| exact Hjk].
  clear k Hjk.
  intros k IH Hjk Hlen.
  destruct (Z.eq_dec j k) as [-> | Hne]; [lia |].
  transitivity (entry tbl (k - 1)).
  - apply IH; lia.
  - replace k with (k - 1 + 1) at 2 by lia.
    apply nondecreasing_step; [exact Hnd | lia | lia].
Qed.

(** Every table of the source file is well formed, on either target. *)
Lemma table_ok_compiled (tgt : int_model) (ipeak : ipeak_configuration)
    (vout : output_voltage) :
  table_ok tgt (LTC3335_Software_Correction_Table ipeak vout) = true.
Proof. destruct tgt, ipeak, vout; vm_compute; reflexivity. Qed.

(** ** The function on a well-formed table *)

Lemma spec_index_div (vbat : Z) :
  1800 <= vbat -> spec_index vbat = (vbat - 1800) / 100.
Proof.
  intros H. apply Z.quot_div_nonneg; unfold LTC3335_VBAT_MIN; lia.
Qed.

Lemma spec_index_range (vbat : Z) :
  1800 <= vbat < 5500 ->
  0 <= spec_index vbat <= 36
  /\ 0 <= vbat - (1800 + spec_index vbat * 100) <= 99.
Proof.
  intros H.
  rewrite spec_index_div by lia.
  pose proof (Z.mod_pos_bound (vbat - 1800) 100 ltac:(lia)).
  pose proof (Z.div_mod (vbat - 1800) 100 ltac:(lia)).
  lia.
Qed.

(** The interpolated value lies between the two entries it is taken
    from. *)
Lemma spec_interpolation_between (tbl : list Z) (vbat : Z) :
  1800 < vbat < 5500 ->
  Z.min (entry tbl (spec_index vbat))
        (entry tbl (spec_index vbat + 1))
  <= spec_interpolation tbl vbat
  <= Z.max (entry tbl (spec_index vbat))
           (entry tbl (spec_index vbat + 1)).
Proof.
  intros H.
  destruct (spec_index_range vbat ltac:(lia)) as [_ Hr].
  unfold spec_interpolation.
  change (LTC3335_VBAT_STEP ÷ 2) with 50.
  unfold LTC3335_VBAT_MIN, LTC3335_VBAT_STEP in *.
  pose proof (round_between
    (entry tbl (spec_index vbat + 1)
     - entry tbl (spec_index vbat)) _ Hr).
  lia.
Qed.

Section WellFormed.

Variable tgt : int_model.
Variable m : memory.
Hypothesis Hok : table_ok tgt (progmem m) = true.

Lemma call_low (vbat : Z) :
  0 <= vbat <= 1800 ->
  LTC3335_Get_Software_Correction_Factor tgt vbat m
  = Some (entry (progmem m) 0, m).
Proof.
  intros H.
  apply clamp_low_run; [exact H | |].
  - apply (table_ok_read tgt _ Hok 0). lia.
  - apply (table_ok_entry tgt _ Hok). lia.
Qed.

Lemma call_high (vbat : Z) :
  5500 <= vbat <= 65535 ->
  LTC3335_Get_Software_Correction_Factor tgt vbat m
  = Some (entry (progmem m) 37, m).
Proof.
  intros H.
  apply clamp_high_run; [exact H | |].
  - apply (table_ok_read tgt _ Hok 37). lia.
  - apply (table_ok_entry tgt _ Hok). lia.
Qed.

Lemma call_between (vbat : Z) :
  1800 < vbat < 5500 ->
  LTC3335_Get_Software_Correction_Factor tgt vbat m
  = Some (spec_interpolation (progmem m) vbat, m).
Proof.
  intros H.
  destruct (spec_index_range vbat ltac:(lia)) as [Hi _].
  unfold spec_interpolation.
  rewrite spec_index_div in * by lia.
  apply interpolate_run; [exact H | | | | |].
  - apply (table_ok_read tgt _ Hok). lia.
  - apply (table_ok_read tgt _ Hok). lia.
  - apply (table_ok_entry tgt _ Hok). lia.
  - apply (table_ok_entry tgt _ Hok). lia.
  - apply (table_ok_step tgt _ Hok). lia.
Qed.

Lemma call_spec (vbat : Z) :
  0 <= vbat <= 65535 ->
  LTC3335_Get_Software_Correction_Factor tgt vbat m
  = Some (spec_correction_factor (progmem m) vbat, m).
Proof.
  intros H.
  unfold spec_correction_factor.
  destruct (Z.leb_spec vbat 1800); [apply call_low; lia |].
  destruct (Z.leb_spec 5500 vbat); [apply call_high; lia |].
  apply call_between; lia.
Qed.

Lemma spec_correction_factor_int16 (vbat : Z) :
  0 <= vbat <= 65535 ->
  -32768 <= spec_correction_factor (progmem m) vbat <= 32767.
Proof.
  intros H.
  unfold spec_correction_factor.
  destruct (Z.leb_spec vbat 1800); [apply (table_ok_entry tgt _ Hok); lia |].
  destruct (Z.leb_spec 5500 vbat); [apply (table_ok_entry tgt _ Hok); lia |].
  destruct (spec_index_range vbat ltac:(lia)) as [Hi _].
  pose proof (spec_interpolation_between (progmem m) vbat ltac:(lia)).
  pose proof (table_ok_entry tgt _ Hok (spec_index vbat) ltac:(lia)).
  pose proof (table_ok_entry tgt _ Hok (spec_index vbat + 1) ltac:(lia)).
  lia.
Qed.

End WellFormed.

(** The argument only counts modulo 2^16: it is converted to [uint16_t]. *)
Lemma call_wraps (tgt : int_model) (arg : Z) (m : memory) :
  LTC3335_Get_Software_Correction_Factor tgt arg m
  = LTC3335_Get_Software_Correction_Factor tgt (arg mod 65536) m.
Proof.
  unfold LTC3335_Get_Software_Correction_Factor.
  replace (wrap uint16_t (arg mod 65536)) with (wrap uint16_t arg);
    [reflexivity |].
  unfold wrap; cbn [is_signed uint16_t bits].
  change (2 ^ 16) with 65536.
  symmetry. apply Z.mod_mod. lia.
Qed.

(** ** The function reads program memory only *)

Lemma constant_ret {A : Type} (a : A) : constant (ret a).
Proof. intros p. exists (Some a). reflexivity. Qed.

Lemma constant_lift {A : Type} (o : option A) : constant (lift o).
Proof. intros p. exists o. destruct o; reflexivity. Qed.

Lemma constant_bind {A B : Type} (c : C A) (k : A -> C B) :
  constant c -> (forall a, constant (k a)) -> constant (bind c k).
Proof.
  intros Hc Hk p.
  destruct (Hc p) as [[a |] Ho].
  - destruct (Hk a p) as [o' Ho'].
    exists o'. intros d.
    unfold bind. rewrite Ho. cbn [option_map]. apply Ho'.
  - exists None. intros d.
    unfold bind. rewrite Ho. reflexivity.
Qed.

Lemma constant_pgm_read_word (i : cval) : constant (pgm_read_word i).
Proof.
  intros p.
  exists (if val i <? 0 then None
          else option_map (fun w => CVal uint16_t (wrap uint16_t w))
                 (nth_error p (Z.to_nat (val i)))).
  intros d.
  unfold pgm_read_word; cbn [progmem].
  destruct (val i <? 0); [reflexivity |].
  destruct (nth_error p (Z.to_nat (val i))); reflexivity.
Qed.

Ltac constant_body :=
  repeat first
    [ apply constant_ret
    | apply constant_lift
    | apply constant_pgm_read_word
    | apply constant_bind; [| intros ?]
    | match goal with
      | |- constant (if ?b then _ else _) => destruct b
      end ].

Lemma constant_call (tgt : int_model) (arg : Z) :
  constant (LTC3335_Get_Software_Correction_Factor tgt arg).
Proof.
  unfold LTC3335_Get_Software_Correction_Factor, interpolation_product,
    LTC3335_VBAT_TO_TABLE_INDEX, LTC3335_VBAT_MAX, add, sub, mul, div.
  constant_body.
Qed.

Lemma constant_memory {A : Type} (c : C A) (m m' : memory) (a : A) :
  constant c -> c m = Some (a, m') -> m' = m.
Proof.
  intros Hc Hrun.
  destruct m as [p d].
  destruct (Hc p) as [o Ho].
  rewrite Ho in Hrun.
  destruct o; cbn in Hrun; congruence.
Qed.

(** ** The table index *)

Lemma table_index_run (tgt : int_model) (m : memory) (vbat : Z) :
  1800 <= vbat < 5500 ->
  LTC3335_VBAT_TO_TABLE_INDEX tgt (CVal uint16_t vbat) m
  = Some (CVal uint8_t (spec_index vbat), m).
Proof.
  intros H.
  destruct (spec_index_range vbat H) as [Hi _].
  unfold spec_index, LTC3335_VBAT_TO_TABLE_INDEX, sub, div,
    LTC3335_VBAT_MIN, LTC3335_VBAT_STEP in *.
  destruct tgt.
  all: do 2 c_step.
  all: reflexivity.
Qed.

Lemma branch_tests (tgt : int_model) (vbat : Z) :
  0 <= vbat <= 65535 ->
  le tgt (CVal uint16_t vbat) (lit tgt LTC3335_VBAT_MIN) = (vbat <=? 1800)
  /\ ge tgt (CVal uint16_t vbat) (lit tgt 5500) = (5500 <=? vbat).
Proof.
  intros H.
  unfold le, ge, LTC3335_VBAT_MIN.
  destruct tgt.
  all: split.
  all: match goal with
       | |- compare ?tgt ?f ?a ?b = _ =>
           let t := eval lazy in (usual tgt (ty a) (ty b)) in
           rewrite (compare_fits tgt f a b t eq_refl eq_refl) by fits
       end.
  all: cbv beta delta [lit]; cbn [val]; try reflexivity; apply Z.geb_leb.
Qed.

(** ** The claims *)

(** C1. For every input with 1800 < vbat < 5500 the function returns
    [lo + ((hi - lo) * (vbat - (1800 + index * 100)) + 50) / 100], where
    [index = (vbat - 1800) / 100], [lo = table[index]],
    [hi = table[index + 1]] and both divisions truncate toward zero.  The
    product [(hi - lo) * (vbat - (1800 + index * 100))] is computed in the
    signed 32-bit type [int32_t], on either target, and its value is the
    mathematical product: it does not overflow. *)
Theorem interpolation_formula (tgt : int_model) (ipeak : ipeak_configuration)
    (vout : output_voltage) (data : list Z) (vbat : Z) :
  1800 < vbat < 5500 ->
  LTC3335_Get_Software_Correction_Factor tgt vbat (image ipeak vout data)
  = Some (spec_interpolation (LTC3335_Software_Correction_Table ipeak vout)
            vbat,
          image ipeak vout data)
  /\ interpolation_product tgt
       (CVal int16_t
          (entry (LTC3335_Software_Correction_Table ipeak vout)
             (spec_index vbat)))
       (CVal int16_t
          (entry (LTC3335_Software_Correction_Table ipeak vout)
             (spec_index vbat + 1)))
       (CVal uint16_t vbat) (CVal uint8_t (spec_index vbat))
       (image ipeak vout data)
     = Some (CVal int32_t
               ((entry (LTC3335_Software_Correction_Table ipeak vout)
                   (spec_index vbat + 1)
                 - entry (LTC3335_Software_Correction_Table ipeak vout)
                     (spec_index vbat))
                * (vbat - (1800 + spec_index vbat * 100))),
             image ipeak vout data)
  /\ -2147483648
     <= (entry (LTC3335_Software_Correction_Table ipeak vout)
           (spec_index vbat + 1)
         - entry (LTC3335_Software_Correction_Table ipeak vout)
             (spec_index vbat))
        * (vbat - (1800 + spec_index vbat * 100))
     <= 2147483647.
Proof.
  intros H.
  pose proof (table_ok_compiled tgt ipeak vout) as Hok.
  destruct (spec_index_range vbat ltac:(lia)) as [Hi Hr].
  set (tbl := LTC3335_Software_Correction_Table ipeak vout) in *.
  pose proof (table_ok_entry tgt tbl Hok (spec_index vbat) ltac:(lia)) as Rlo.
  pose proof (table_ok_entry tgt tbl Hok (spec_index vbat + 1) ltac:(lia))
    as Rhi.
  split; [| split].
  - apply (call_between tgt (image ipeak vout data) Hok vbat H).
  - apply interpolation_product_run; try assumption.
    apply (table_ok_step tgt tbl Hok). lia.
  - pose proof (product_bound
      (entry tbl (spec_index vbat + 1) - entry tbl (spec_index vbat))
      _ ltac:(lia) Hr).
    lia.
Qed.

Lemma interpolation_formula_witness :
  1800 < 4550 < 5500
  /\ LTC3335_Get_Software_Correction_Factor Int16 4550
       (image LTC3335_IPEAK_CONFIGURATION_10MA LTC3335_OUTPUT_VOLTAGE_3_3V [])
     = Some (8826 + ((9074 - 8826) * (4550 - (1800 + 27 * 100)) + 50) ÷ 100,
             image LTC3335_IPEAK_CONFIGURATION_10MA
               LTC3335_OUTPUT_VOLTAGE_3_3V []).
Proof.
  split; [lia |].
  apply (interpolation_formula Int16 LTC3335_IPEAK_CONFIGURATION_10MA
           LTC3335_OUTPUT_VOLTAGE_3_3V [] 4550).
  lia.
Defined.

(** C2. For every input vbat <= 1800 the function returns table entry 0
    unchanged, and for every input vbat >= 5500 it returns table entry 37
    unchanged; nothing is extrapolated.  The inputs are the values of the
    parameter type [uint16_t], 0 .. 65535. *)
Theorem clamp_outside_table (tgt : int_model) (ipeak : ipeak_configuration)
    (vout : output_voltage) (data : list Z) (vbat : Z) :
  0 <= vbat <= 65535 ->
  (vbat <= 1800 ->
   LTC3335_Get_Software_Correction_Factor tgt vbat (image ipeak vout data)
   = Some (entry (LTC3335_Software_Correction_Table ipeak vout) 0,
           image ipeak vout data))
  /\ (5500 <= vbat ->
      LTC3335_Get_Software_Correction_Factor tgt vbat (image ipeak vout data)
      = Some (entry (LTC3335_Software_Correction_Table ipeak vout) 37,
              image ipeak vout data)).
Proof.
  intros H.
  pose proof (table_ok_compiled tgt ipeak vout) as Hok.
  split; intros Hv.
  - apply (call_low tgt (image ipeak vout data) Hok). lia.
  - apply (call_high tgt (image ipeak vout data) Hok). lia.
Qed.

Lemma clamp_outside_table_witness :
  0 <= 1700 <= 65535 /\ 1700 <= 1800
  /\ LTC3335_Get_Software_Correction_Factor Int16 1700
       (image LTC3335_IPEAK_CONFIGURATION_10MA LTC3335_OUTPUT_VOLTAGE_3_3V [])
     = Some (3312,
             image LTC3335_IPEAK_CONFIGURATION_10MA
               LTC3335_OUTPUT_VOLTAGE_3_3V []).
Proof.
  split; [lia |]. split; [lia |].
  apply (proj1 (clamp_outside_table Int16 LTC3335_IPEAK_CONFIGURATION_10MA
                  LTC3335_OUTPUT_VOLTAGE_3_3V [] 1700 ltac:(lia))).
  lia.
Defined.

(** C3. For every k with 0 <= k <= 37 the function maps [1800 + k * 100]
    to table entry k exactly: at a node the interpolation is the
    identity. *)
Theorem identity_at_nodes (tgt : int_model) (ipeak : ipeak_configuration)
    (vout : output_voltage) (data : list Z) (k : Z) :
  0 <= k <= 37 ->
  LTC3335_Get_Software_Correction_Factor tgt (1800 + k * 100)
    (image ipeak vout data)
  = Some (entry (LTC3335_Software_Correction_Table ipeak vout) k,
          image ipeak vout data).
Proof.
  intros Hk.
  pose proof (table_ok_compiled tgt ipeak vout) as Hok.
  destruct (Z.eq_dec k 0) as [-> | H0].
  { apply (call_low tgt (image ipeak vout data) Hok). lia. }
  destruct (Z.eq_dec k 37) as [-> | H37].
  { apply (call_high tgt (image ipeak vout data) Hok). lia. }
  rewrite (call_between tgt (image ipeak vout data) Hok) by lia.
  assert (Hi : spec_index (1800 + k * 100) = k).
  { rewrite spec_index_div by lia.
    replace (1800 + k * 100 - 1800) with (k * 100) by lia.
    apply Z.div_mul. lia. }
  unfold spec_interpolation.
  rewrite Hi.
  unfold LTC3335_VBAT_MIN, LTC3335_VBAT_STEP.
  replace (1800 + k * 100 - (1800 + k * 100)) with 0 by lia.
  rewrite Z.mul_0_r.
  change ((0 + 100 ÷ 2) ÷ 100) with 0.
  rewrite Z.add_0_r.
  reflexivity.
Qed.

Lemma identity_at_nodes_witness :
  0 <= 27 <= 37
  /\ LTC3335_Get_Software_Correction_Factor Int16 (1800 + 27 * 100)
       (image LTC3335_IPEAK_CONFIGURATION_10MA LTC3335_OUTPUT_VOLTAGE_3_3V [])
     = Some (8826,
             image LTC3335_IPEAK_CONFIGURATION_10MA
               LTC3335_OUTPUT_VOLTAGE_3_3V []).
Proof.
  split; [lia |].
  apply (identity_at_nodes Int16 LTC3335_IPEAK_CONFIGURATION_10MA
           LTC3335_OUTPUT_VOLTAGE_3_3V [] 27).
  lia.
Defined.

(** C4. For every vbat in [1800, 5500] on which both range tests of the
    function fail, so that the interpolating branch runs, the index the
    macro computes satisfies 0 <= index <= LTC3335_VBAT_NUM - 2 = 36, and
    the reads of [table[index]] and [table[index + 1]] stay inside the 38
    entries: both are defined. *)
Theorem index_in_bounds (tgt : int_model) (ipeak : ipeak_configuration)
    (vout : output_voltage) (data : list Z) (vbat : Z) :
  1800 <= vbat <= 5500 ->
  le tgt (CVal uint16_t vbat) (lit tgt LTC3335_VBAT_MIN) = false ->
  ge tgt (CVal uint16_t vbat) (lit tgt 5500) = false ->
  exists index : Z,
    LTC3335_VBAT_TO_TABLE_INDEX tgt (CVal uint16_t vbat)
      (image ipeak vout data)
    = Some (CVal uint8_t index, image ipeak vout data)
    /\ 0 <= index <= LTC3335_VBAT_NUM - 2
    /\ (Z.to_nat (index + 1)
        < length (LTC3335_Software_Correction_Table ipeak vout))%nat
    /\ pgm_read_word (CVal uint8_t index) (image ipeak vout data)
       = Some (CVal uint16_t
                 (wrap uint16_t
                    (entry (LTC3335_Software_Correction_Table ipeak vout)
                       index)),
               image ipeak vout data)
    /\ bind (add tgt (CVal uint8_t index) (lit tgt 1)) pgm_read_word
         (image ipeak vout data)
       = Some (CVal uint16_t
                 (wrap uint16_t
                    (entry (LTC3335_Software_Correction_Table ipeak vout)
                       (index + 1))),
               image ipeak vout data).
Proof.
  intros H Hle Hge.
  destruct (branch_tests tgt vbat ltac:(lia)) as [Tle Tge].
  rewrite Tle in Hle. rewrite Tge in Hge.
  apply Z.leb_gt in Hle, Hge.
  pose proof (table_ok_compiled tgt ipeak vout) as Hok.
  destruct (spec_index_range vbat ltac:(lia)) as [Hi _].
  exists (spec_index vbat).
  split; [apply table_index_run; lia |].
  split; [unfold LTC3335_VBAT_NUM; lia |].
  split; [rewrite (table_ok_length tgt _ Hok); lia |].
  split.
  - apply pgm_read_word_run; [cbn [val]; lia |].
    apply (table_ok_read tgt _ Hok). lia.
  - unfold add.
    assert (Ha : arith tgt Z.add (CVal uint8_t (spec_index vbat)) (lit tgt 1)
                 = Some (CVal (c_int tgt) (spec_index vbat + 1))).
    { destruct tgt.
      all: match goal with
           | |- arith ?tgt ?f ?a ?b = _ =>
               let t := eval lazy in (usual tgt (ty a) (ty b)) in
               rewrite (arith_fits tgt f a b t eq_refl eq_refl) by fits
           end.
      all: reflexivity. }
    rewrite Ha, bind_lift.
    apply pgm_read_word_run; [cbn [val]; lia |].
    apply (table_ok_read tgt _ Hok). lia.
Qed.

Lemma index_in_bounds_witness :
  1800 <= 5499 <= 5500
  /\ le Int16 (CVal uint16_t 5499) (lit Int16 LTC3335_VBAT_MIN) = false
  /\ ge Int16 (CVal uint16_t 5499) (lit Int16 5500) = false
  /\ exists index : Z,
       LTC3335_VBAT_TO_TABLE_INDEX Int16 (CVal uint16_t 5499)
         (image LTC3335_IPEAK_CONFIGURATION_10MA
            LTC3335_OUTPUT_VOLTAGE_3_3V [])
       = Some (CVal uint8_t index,
               image LTC3335_IPEAK_CONFIGURATION_10MA
                 LTC3335_OUTPUT_VOLTAGE_3_3V [])
       /\ 0 <= index <= LTC3335_VBAT_NUM - 2.
Proof.
  split; [lia |]. split; [reflexivity |]. split; [reflexivity |].
  destruct (index_in_bounds Int16 LTC3335_IPEAK_CONFIGURATION_10MA
              LTC3335_OUTPUT_VOLTAGE_3_3V [] 5499
              ltac:(lia) eq_refl eq_refl) as [index [Hrun [Hrange _]]].
  exists index. split; [exact Hrun | exact Hrange].
Defined.

(** C5. With the table for peak current 10 mA and output voltage 3.3 V,
    the function returns 8826 at 4500, which is table entry 27, and
    8950 = 8826 + 124 at 4550, the half-step point before entry
    28 = 9074, where the rounding term 50 is added to 248 * 50. *)
Theorem example_10mA_3V3 (tgt : int_model) (data : list Z) :
  entry (LTC3335_Software_Correction_Table LTC3335_IPEAK_CONFIGURATION_10MA
           LTC3335_OUTPUT_VOLTAGE_3_3V) 27 = 8826
  /\ entry (LTC3335_Software_Correction_Table LTC3335_IPEAK_CONFIGURATION_10MA
              LTC3335_OUTPUT_VOLTAGE_3_3V) 28 = 9074
  /\ LTC3335_Get_Software_Correction_Factor tgt 4500
       (image LTC3335_IPEAK_CONFIGURATION_10MA LTC3335_OUTPUT_VOLTAGE_3_3V
          data)
     = Some (8826,
             image LTC3335_IPEAK_CONFIGURATION_10MA
               LTC3335_OUTPUT_VOLTAGE_3_3V data)
  /\ LTC3335_Get_Software_Correction_Factor tgt 4550
       (image LTC3335_IPEAK_CONFIGURATION_10MA LTC3335_OUTPUT_VOLTAGE_3_3V
          data)
     = Some (8950,
             image LTC3335_IPEAK_CONFIGURATION_10MA
               LTC3335_OUTPUT_VOLTAGE_3_3V data)
  /\ 8950 = 8826 + 124
  /\ 4550 = 1800 + 27 * 100 + 100 ÷ 2
  /\ ((9074 - 8826) * 50 + 50) ÷ 100 = 124.
Proof.
  repeat split; try reflexivity.
  all: destruct tgt; reflexivity.
Qed.

(** The rounding quotient at the half-step of a segment whose difference
    [d] is odd, so that [d * 50 / 100] is an exact tie. *)
Lemma round_tie (d : Z) :
  Z.odd d = true -> 2 * ((d * 50 + 50) ÷ 100) = d + 1.
Proof.
  intros Hodd.
  apply Z.odd_spec in Hodd as [j ->].
  replace ((2 * j + 1) * 50 + 50) with ((j + 1) * 100) by lia.
  rewrite Z.quot_mul by lia.
  lia.
Qed.

(** C6. The compiled-in tables for high peak currents have segments with
    hi - lo < 0 (entries 2 and 3 of the 100 mA / 1.8 V table: 77 and -88).
    On such a segment the rounding [(numerator + 50) / 100] does not
    mirror what it does on a rising segment.  At the exact half-step tie
    (vbat = 1800 + k * 100 + 50 with hi - lo odd) the result is rounded
    toward positive infinity in both cases, [2 * (r - lo) = (hi - lo) + 1]:
    for hi - lo < 0 that is above the exact value and toward zero, the
    offset has magnitude [(|hi - lo| - 1) / 2], while for hi - lo > 0 it is
    away from zero, with magnitude [(|hi - lo| + 1) / 2]. *)
Theorem negative_tie_rounds_up :
  (entry (LTC3335_Software_Correction_Table LTC3335_IPEAK_CONFIGURATION_100MA
            LTC3335_OUTPUT_VOLTAGE_1_8V) 3
   - entry (LTC3335_Software_Correction_Table
              LTC3335_IPEAK_CONFIGURATION_100MA
              LTC3335_OUTPUT_VOLTAGE_1_8V) 2 = -165)
  /\ forall (tgt : int_model) (ipeak : ipeak_configuration)
       (vout : output_voltage) (data : list Z) (k : Z),
       0 <= k <= 36 ->
       Z.odd (entry (LTC3335_Software_Correction_Table ipeak vout) (k + 1)
              - entry (LTC3335_Software_Correction_Table ipeak vout) k)
       = true ->
       exists r : Z,
         LTC3335_Get_Software_Correction_Factor tgt (1800 + k * 100 + 50)
           (image ipeak vout data)
         = Some (r, image ipeak vout data)
         /\ 2 * (r - entry (LTC3335_Software_Correction_Table ipeak vout) k)
            = entry (LTC3335_Software_Correction_Table ipeak vout) (k + 1)
              - entry (LTC3335_Software_Correction_Table ipeak vout) k + 1
         /\ (entry (LTC3335_Software_Correction_Table ipeak vout) (k + 1)
             < entry (LTC3335_Software_Correction_Table ipeak vout) k ->
             2 * Z.abs
                   (r - entry (LTC3335_Software_Correction_Table ipeak vout) k)
             = Z.abs
                 (entry (LTC3335_Software_Correction_Table ipeak vout) (k + 1)
                  - entry (LTC3335_Software_Correction_Table ipeak vout) k)
               - 1)
         /\ (entry (LTC3335_Software_Correction_Table ipeak vout) k
             < entry (LTC3335_Software_Correction_Table ipeak vout) (k + 1) ->
             2 * Z.abs
                   (r - entry (LTC3335_Software_Correction_Table ipeak vout) k)
             = Z.abs
                 (entry (LTC3335_Software_Correction_Table ipeak vout) (k + 1)
                  - entry (LTC3335_Software_Correction_Table ipeak vout) k)
               + 1).
Proof.
  split; [reflexivity |].
  intros tgt ipeak vout data k Hk Hodd.
  pose proof (table_ok_compiled tgt ipeak vout) as Hok.
  set (tbl := LTC3335_Software_Correction_Table ipeak vout) in *.
  assert (Hi : spec_index (1800 + k * 100 + 50) = k).
  { rewrite spec_index_div by lia.
    pose proof (Z.mod_pos_bound (1800 + k * 100 + 50 - 1800) 100 ltac:(lia)).
    pose proof (Z.div_mod (1800 + k * 100 + 50 - 1800) 100 ltac:(lia)).
    lia. }
  exists (spec_interpolation tbl (1800 + k * 100 + 50)).
  split.
  { apply (call_between tgt (image ipeak vout data) Hok). lia. }
  unfold spec_interpolation.
  rewrite Hi.
  unfold LTC3335_VBAT_MIN, LTC3335_VBAT_STEP.
  change (100 ÷ 2) with 50.
  replace (1800 + k * 100 + 50 - (1800 + k * 100)) with 50 by lia.
  pose proof (round_tie (entry tbl (k + 1) - entry tbl k) Hodd) as Ht.
  repeat split; lia.
Qed.

Lemma negative_tie_rounds_up_witness :
  0 <= 2 <= 36
  /\ Z.odd (-88 - 77) = true
  /\ exists r : Z,
       LTC3335_Get_Software_Correction_Factor Int16 (1800 + 2 * 100 + 50)
         (image LTC3335_IPEAK_CONFIGURATION_100MA
            LTC3335_OUTPUT_VOLTAGE_1_8V [])
       = Some (r, image LTC3335_IPEAK_CONFIGURATION_100MA
                    LTC3335_OUTPUT_VOLTAGE_1_8V [])
       /\ 2 * (r - 77) = -88 - 77 + 1.
Proof.
  split; [lia |]. split; [reflexivity |].
  destruct (proj2 negative_tie_rounds_up Int16
              LTC3335_IPEAK_CONFIGURATION_100MA LTC3335_OUTPUT_VOLTAGE_1_8V
              [] 2 ltac:(lia) eq_refl) as [r [Hrun [Hr _]]].
  exists r. split; [exact Hrun | exact Hr].
Defined.

(** C7, as claimed: the function clamps whatever integer it is given
    outside [1800, 5500].  It does not: the parameter is [uint16_t], the
    argument 68586 is converted to 3050 and interpolated, and the result
    5649 is neither boundary entry of the table. *)
Lemma integer_argument_not_clamped :
  5500 < 68586
  /\ LTC3335_Get_Software_Correction_Factor Int16 68586
       (image LTC3335_IPEAK_CONFIGURATION_10MA LTC3335_OUTPUT_VOLTAGE_3_3V [])
     = Some (5649,
             image LTC3335_IPEAK_CONFIGURATION_10MA
               LTC3335_OUTPUT_VOLTAGE_3_3V [])
  /\ 5649 <> entry (LTC3335_Software_Correction_Table
                      LTC3335_IPEAK_CONFIGURATION_10MA
                      LTC3335_OUTPUT_VOLTAGE_3_3V) 0
  /\ 5649 <> entry (LTC3335_Software_Correction_Table
                      LTC3335_IPEAK_CONFIGURATION_10MA
                      LTC3335_OUTPUT_VOLTAGE_3_3V) 37.
Proof.
  split; [lia |]. split; [reflexivity |].
  split; discriminate.
Qed.

(** C7, amended.  The function is total: for every integer argument it
    returns a value of type [int16_t] and leaves the memory as it was, with
    no error condition.  Its input domain is the parameter type
    [uint16_t]: an argument counts modulo 65536, and on 0 .. 65535 the
    function clamps outside [1800, 5500], to entry 0 for vbat <= 1800 and
    to entry 37 for vbat >= 5500. *)
Theorem total_on_uint16 (tgt : int_model) (ipeak : ipeak_configuration)
    (vout : output_voltage) (data : list Z) (vbat : Z) :
  (exists r : Z,
     LTC3335_Get_Software_Correction_Factor tgt vbat (image ipeak vout data)
     = Some (r, image ipeak vout data)
     /\ -32768 <= r <= 32767)
  /\ LTC3335_Get_Software_Correction_Factor tgt vbat (image ipeak vout data)
     = LTC3335_Get_Software_Correction_Factor tgt (vbat mod 65536)
         (image ipeak vout data)
  /\ (0 <= vbat <= 1800 ->
      LTC3335_Get_Software_Correction_Factor tgt vbat (image ipeak vout data)
      = Some (entry (LTC3335_Software_Correction_Table ipeak vout) 0,
              image ipeak vout data))
  /\ (5500 <= vbat <= 65535 ->
      LTC3335_Get_Software_Correction_Factor tgt vbat (image ipeak vout data)
      = Some (entry (LTC3335_Software_Correction_Table ipeak vout) 37,
              image ipeak vout data)).
Proof.
  pose proof (table_ok_compiled tgt ipeak vout) as Hok.
  pose proof (Z.mod_pos_bound vbat 65536 ltac:(lia)) as Hm.
  split; [| split; [| split]].
  - exists (spec_correction_factor
              (LTC3335_Software_Correction_Table ipeak vout)
              (vbat mod 65536)).
    rewrite call_wraps.
    split.
    + apply (call_spec tgt (image ipeak vout data) Hok). lia.
    + apply (spec_correction_factor_int16 tgt (image ipeak vout data) Hok).
      lia.
  - apply call_wraps.
  - apply (call_low tgt (image ipeak vout data) Hok).
  - apply (call_high tgt (image ipeak vout data) Hok).
Qed.

Lemma total_on_uint16_witness :
  5500 <= 6000 <= 65535
  /\ LTC3335_Get_Software_Correction_Factor Int16 6000
       (image LTC3335_IPEAK_CONFIGURATION_10MA LTC3335_OUTPUT_VOLTAGE_3_3V [])
     = Some (11519,
             image LTC3335_IPEAK_CONFIGURATION_10MA
               LTC3335_OUTPUT_VOLTAGE_3_3V []).
Proof.
  split; [lia |].
  apply (proj2 (proj2 (proj2
           (total_on_uint16 Int16 LTC3335_IPEAK_CONFIGURATION_10MA
              LTC3335_OUTPUT_VOLTAGE_3_3V [] 6000)))).
  lia.
Defined.

(** C8. The function is deterministic and free of side effects.  A call
    returns the memory it was given; a second call with the same input, on
    the memory the first one left, returns the identical result; and the
    result does not depend on data memory, the only mutable state there
    is: with the same table in program memory and any other data memory
    the call returns the same value. *)
Theorem deterministic_no_side_effect (tgt : int_model) (vbat : Z)
    (m m1 m2 : memory) (r1 r2 : Z) (data : list Z) :
  LTC3335_Get_Software_Correction_Factor tgt vbat m = Some (r1, m1) ->
  LTC3335_Get_Software_Correction_Factor tgt vbat m1 = Some (r2, m2) ->
  m1 = m /\ m2 = m /\ r2 = r1
  /\ LTC3335_Get_Software_Correction_Factor tgt vbat
       (Memory (progmem m) data)
     = Some (r1, Memory (progmem m) data).
Proof.
  intros H1 H2.
  pose proof (constant_call tgt vbat) as Hc.
  assert (E1 : m1 = m) by exact (constant_memory _ _ _ _ Hc H1).
  subst m1.
  assert (E2 : m2 = m) by exact (constant_memory _ _ _ _ Hc H2).
  subst m2.
  split; [reflexivity |]. split; [reflexivity |].
  split; [congruence |].
  destruct m as [p d]; cbn [progmem].
  destruct (Hc p) as [o Ho].
  rewrite Ho in H1. rewrite Ho.
  destruct o as [a |]; cbn [option_map] in *; [| discriminate].
  congruence.
Qed.

Lemma deterministic_no_side_effect_witness :
  LTC3335_Get_Software_Correction_Factor Int16 4550
    (image LTC3335_IPEAK_CONFIGURATION_10MA LTC3335_OUTPUT_VOLTAGE_3_3V [7])
  = Some (8950,
          image LTC3335_IPEAK_CONFIGURATION_10MA LTC3335_OUTPUT_VOLTAGE_3_3V
            [7])
  /\ LTC3335_Get_Software_Correction_Factor Int16 4550
       (Memory
          (LTC3335_Software_Correction_Table LTC3335_IPEAK_CONFIGURATION_10MA
             LTC3335_OUTPUT_VOLTAGE_3_3V)
          [1; 2; 3])
     = Some (8950,
             Memory
               (LTC3335_Software_Correction_Table
                  LTC3335_IPEAK_CONFIGURATION_10MA
                  LTC3335_OUTPUT_VOLTAGE_3_3V)
               [1; 2; 3]).
Proof.
  split; [reflexivity |].
  apply (deterministic_no_side_effect Int16 4550
           (image LTC3335_IPEAK_CONFIGURATION_10MA
              LTC3335_OUTPUT_VOLTAGE_3_3V [7])
           (image LTC3335_IPEAK_CONFIGURATION_10MA
              LTC3335_OUTPUT_VOLTAGE_3_3V [7])
           (image LTC3335_IPEAK_CONFIGURATION_10MA
              LTC3335_OUTPUT_VOLTAGE_3_3V [7])
           8950 8950 [1; 2; 3] eq_refl eq_refl).
Defined.

(** C9. For every input the returned value lies in the closed interval
    between the two table entries that bracket the input: it is entry 0
    for vbat <= 1800, entry 37 for vbat >= 5500, and between
    [table[index]] and [table[index + 1]] in between, so the interpolation
    never passes an end of its segment.  The value is the exact sum
    [lo + q] of the final addition, which is carried out in [int32_t]
    without overflow, and it fits [int16_t], so the conversion to the
    return type leaves it unchanged. *)
Theorem result_between_bracketing_entries (tgt : int_model)
    (ipeak : ipeak_configuration) (vout : output_voltage) (data : list Z)
    (vbat : Z) :
  0 <= vbat <= 65535 ->
  exists r : Z,
    LTC3335_Get_Software_Correction_Factor tgt vbat (image ipeak vout data)
    = Some (r, image ipeak vout data)
    /\ -32768 <= r <= 32767
    /\ (vbat <= 1800 ->
        r = entry (LTC3335_Software_Correction_Table ipeak vout) 0)
    /\ (5500 <= vbat ->
        r = entry (LTC3335_Software_Correction_Table ipeak vout) 37)
    /\ (1800 < vbat < 5500 ->
        Z.min (entry (LTC3335_Software_Correction_Table ipeak vout)
                 (spec_index vbat))
              (entry (LTC3335_Software_Correction_Table ipeak vout)
                 (spec_index vbat + 1))
        <= r
        <= Z.max (entry (LTC3335_Software_Correction_Table ipeak vout)
                    (spec_index vbat))
                 (entry (LTC3335_Software_Correction_Table ipeak vout)
                    (spec_index vbat + 1))
        /\ exists q : Z,
             add tgt
               (CVal int16_t
                  (entry (LTC3335_Software_Correction_Table ipeak vout)
                     (spec_index vbat)))
               (CVal int32_t q) (image ipeak vout data)
             = Some (CVal int32_t r, image ipeak vout data)
             /\ r = entry (LTC3335_Software_Correction_Table ipeak vout)
                      (spec_index vbat) + q
             /\ cast int16_t (CVal int32_t r) = CVal int16_t r).
Proof.
  intros H.
  pose proof (table_ok_compiled tgt ipeak vout) as Hok.
  set (tbl := LTC3335_Software_Correction_Table ipeak vout) in *.
  pose proof (spec_correction_factor_int16 tgt (image ipeak vout data) Hok
                vbat H) as Hr.
  change (progmem (image ipeak vout data)) with tbl in Hr.
  exists (spec_correction_factor tbl vbat).
  split; [apply (call_spec tgt (image ipeak vout data) Hok); exact H |].
  split; [exact Hr |].
  unfold spec_correction_factor in *.
  destruct (Z.leb_spec vbat 1800) as [Hlow | Hlow].
  { repeat split; try reflexivity; intros; lia. }
  destruct (Z.leb_spec 5500 vbat) as [Hhigh | Hhigh].
  { repeat split; try reflexivity; intros; lia. }
  split; [intros; lia |]. split; [intros; lia |].
  intros _.
  destruct (spec_index_range vbat ltac:(lia)) as [Hi Hrest].
  pose proof (spec_interpolation_between tbl vbat ltac:(lia)) as Hb.
  split; [exact Hb |].
  pose proof (table_ok_entry tgt tbl Hok (spec_index vbat) ltac:(lia)) as Rlo.
  pose proof (table_ok_entry tgt tbl Hok (spec_index vbat + 1) ltac:(lia))
    as Rhi.
  unfold spec_interpolation in *.
  set (q := ((entry tbl (spec_index vbat + 1) - entry tbl (spec_index vbat))
             * (vbat - (LTC3335_VBAT_MIN
                        + spec_index vbat * LTC3335_VBAT_STEP))
             + LTC3335_VBAT_STEP ÷ 2) ÷ LTC3335_VBAT_STEP) in *.
  exists q.
  split; [| split; [reflexivity |]].
  - unfold add.
    assert (Ha : arith tgt Z.add (CVal int16_t (entry tbl (spec_index vbat)))
                   (CVal int32_t q)
                 = Some (CVal int32_t (entry tbl (spec_index vbat) + q))).
    { destruct tgt.
      all: match goal with
           | |- arith ?tgt ?f ?a ?b = _ =>
               let t := eval lazy in (usual tgt (ty a) (ty b)) in
               rewrite (arith_fits tgt f a b t eq_refl eq_refl) by fits
           end.
      all: reflexivity. }
    rewrite Ha. reflexivity.
  - unfold cast; cbn [val].
    rewrite (wrap_fits int16_t) by (reflexivity || fits).
    reflexivity.
Qed.

Lemma result_between_bracketing_entries_witness :
  0 <= 2050 <= 65535
  /\ exists r : Z,
       LTC3335_Get_Software_Correction_Factor Int16 2050
         (image LTC3335_IPEAK_CONFIGURATION_100MA
            LTC3335_OUTPUT_VOLTAGE_1_8V [])
       = Some (r, image LTC3335_IPEAK_CONFIGURATION_100MA
                    LTC3335_OUTPUT_VOLTAGE_1_8V [])
       /\ -32768 <= r <= 32767.
Proof.
  split; [lia |].
  destruct (result_between_bracketing_entries Int16
              LTC3335_IPEAK_CONFIGURATION_100MA LTC3335_OUTPUT_VOLTAGE_1_8V
              [] 2050 ltac:(lia)) as [r [Hrun [Hr _]]].
  exists r. split; [exact Hrun | exact Hr].
Defined.

(** ** Monotonicity on a nondecreasing table *)

Section Nondecreasing.

Variable tbl : list Z.
Hypothesis Hlen : length tbl = 38%nat.
Hypothesis Hnd : nondecreasing tbl = true.

Lemma entries_ordered (j k : Z) :
  0 <= j <= k -> k <= 37 -> entry tbl j <= entry tbl k.
Proof.
  intros Hjk Hk.
  apply nondecreasing_entries; [exact Hnd | exact Hjk | rewrite Hlen; lia].
Qed.

Lemma spec_interpolation_in_segment (vbat : Z) :
  1800 < vbat < 5500 ->
  entry tbl (spec_index vbat)
  <= spec_interpolation tbl vbat
  <= entry tbl (spec_index vbat + 1).
Proof.
  intros H.
  destruct (spec_index_range vbat ltac:(lia)) as [Hi _].
  pose proof (spec_interpolation_between tbl vbat H).
  pose proof (entries_ordered (spec_index vbat) (spec_index vbat + 1)
                ltac:(lia) ltac:(lia)).
  lia.
Qed.

Lemma spec_interpolation_monotone (v1 v2 : Z) :
  1800 < v1 -> v1 <= v2 -> v2 < 5500 ->
  spec_interpolation tbl v1 <= spec_interpolation tbl v2.
Proof.
  intros H1 H12 H2.
  destruct (spec_index_range v1 ltac:(lia)) as [Hi1 Hr1].
  destruct (spec_index_range v2 ltac:(lia)) as [Hi2 Hr2].
  assert (Hle : spec_index v1 <= spec_index v2).
  { rewrite !spec_index_div by lia. apply Z.div_le_mono; lia. }
  destruct (Z.eq_dec (spec_index v1) (spec_index v2)) as [E | NE].
  - unfold spec_interpolation.
    change (LTC3335_VBAT_STEP ÷ 2) with 50.
    unfold LTC3335_VBAT_MIN, LTC3335_VBAT_STEP.
    rewrite E in *.
    pose proof (entries_ordered (spec_index v2) (spec_index v2 + 1)
                  ltac:(lia) ltac:(lia)).
    apply Z.add_le_mono_l, round_monotone; lia.
  - pose proof (spec_interpolation_in_segment v1 ltac:(lia)).
    pose proof (spec_interpolation_in_segment v2 ltac:(lia)).
    pose proof (entries_ordered (spec_index v1 + 1) (spec_index v2)
                  ltac:(lia) ltac:(lia)).
    lia.
Qed.

Lemma spec_correction_factor_monotone (v1 v2 : Z) :
  v1 <= v2 ->
  spec_correction_factor tbl v1 <= spec_correction_factor tbl v2.
Proof.
  intros H12.
  unfold spec_correction_factor.
  destruct (Z.leb_spec v1 1800) as [L1 | L1];
    destruct (Z.leb_spec v2 1800) as [L2 | L2]; try lia.
  - destruct (Z.leb_spec 5500 v2) as [U2 | U2].
    + apply entries_ordered; lia.
    + destruct (spec_index_range v2 ltac:(lia)) as [Hi2 _].
      pose proof (spec_interpolation_in_segment v2 ltac:(lia)).
      pose proof (entries_ordered 0 (spec_index v2) ltac:(lia) ltac:(lia)).
      lia.
  - destruct (Z.leb_spec 5500 v1) as [U1 | U1];
      destruct (Z.leb_spec 5500 v2) as [U2 | U2]; try lia.
    + destruct (spec_index_range v1 ltac:(lia)) as [Hi1 _].
      pose proof (spec_interpolation_in_segment v1 ltac:(lia)).
      pose proof (entries_ordered (spec_index v1 + 1) 37
                    ltac:(lia) ltac:(lia)).
      lia.
    + apply spec_interpolation_monotone; lia.
Qed.

End Nondecreasing.

(** C10. If the compiled-in table is nondecreasing, as the table for
    10 mA and 3.3 V is, the function is monotone nondecreasing in its
    input: for all inputs v1 <= v2 (values of [uint16_t]) the result at v1
    is at most the result at v2. *)
Theorem monotone_on_nondecreasing_table (tgt : int_model)
    (ipeak : ipeak_configuration) (vout : output_voltage) (data : list Z)
    (v1 v2 : Z) :
  nondecreasing (LTC3335_Software_Correction_Table ipeak vout) = true ->
  0 <= v1 -> v1 <= v2 -> v2 <= 65535 ->
  exists r1 r2 : Z,
    LTC3335_Get_Software_Correction_Factor tgt v1 (image ipeak vout data)
    = Some (r1, image ipeak vout data)
    /\ LTC3335_Get_Software_Correction_Factor tgt v2 (image ipeak vout data)
       = Some (r2, image ipeak vout data)
    /\ r1 <= r2.
Proof.
  intros Hnd H1 H12 H2.
  pose proof (table_ok_compiled tgt ipeak vout) as Hok.
  exists (spec_correction_factor
            (LTC3335_Software_Correction_Table ipeak vout) v1),
         (spec_correction_factor
            (LTC3335_Software_Correction_Table ipeak vout) v2).
  split; [apply (call_spec tgt (image ipeak vout data) Hok); lia |].
  split; [apply (call_spec tgt (image ipeak vout data) Hok); lia |].
  apply spec_correction_factor_monotone;
    [exact (table_ok_length tgt _ Hok) | exact Hnd | exact H12].
Qed.

Lemma monotone_on_nondecreasing_table_witness :
  nondecreasing
    (LTC3335_Software_Correction_Table LTC3335_IPEAK_CONFIGURATION_10MA
       LTC3335_OUTPUT_VOLTAGE_3_3V) = true
  /\ 0 <= 4549 /\ 4549 <= 4550 /\ 4550 <= 65535
  /\ exists r1 r2 : Z,
       LTC3335_Get_Software_Correction_Factor Int16 4549
         (image LTC3335_IPEAK_CONFIGURATION_10MA
            LTC3335_OUTPUT_VOLTAGE_3_3V [])
       = Some (r1, image LTC3335_IPEAK_CONFIGURATION_10MA
                     LTC3335_OUTPUT_VOLTAGE_3_3V [])
       /\ LTC3335_Get_Software_Correction_Factor Int16 4550
            (image LTC3335_IPEAK_CONFIGURATION_10MA
               LTC3335_OUTPUT_VOLTAGE_3_3V [])
          = Some (r2, image LTC3335_IPEAK_CONFIGURATION_10MA
                        LTC3335_OUTPUT_VOLTAGE_3_3V [])
       /\ r1 <= r2.
Proof.
  split; [reflexivity |].
  split; [lia |]. split; [lia |]. split; [lia |].
  apply (monotone_on_nondecreasing_table Int16
           LTC3335_IPEAK_CONFIGURATION_10MA LTC3335_OUTPUT_VOLTAGE_3_3V []
           4549 4550 eq_refl); lia.
Defined.

(** * Further properties of the macro, the tables and the function *)

(** ** The index macro outside the guarded range *)

Lemma wrap_unsigned (t : ctype) (z : Z) :
  is_signed t = false -> wrap t z = z mod 2 ^ bits t.
Proof. intros H. unfold wrap. rewrite H. reflexivity. Qed.

(** Unsigned arithmetic never fails: the result is reduced modulo the
    width of the common type. *)
Lemma arith_unsigned (tgt : int_model) (f : Z -> Z -> Z) (a b : cval)
    (t : ctype) :
  usual tgt (ty a) (ty b) = t ->
  0 < bits t ->
  is_signed t = false ->
  representable t (val a) = true ->
  representable t (val b) = true ->
  arith tgt f a b = Some (CVal t (f (val a) (val b) mod 2 ^ bits t)).
Proof.
  intros Ht Hb Hs Ha Hv.
  unfold arith, result.
  rewrite Ht, (wrap_fits t _ Hb Ha), (wrap_fits t _ Hb Hv), Hs.
  rewrite (wrap_unsigned t _ Hs).
  reflexivity.
Qed.

(** Signed arithmetic whose result leaves the common type has no value. *)
Lemma arith_overflow (tgt : int_model) (f : Z -> Z -> Z) (a b : cval)
    (t : ctype) :
  usual tgt (ty a) (ty b) = t ->
  0 < bits t ->
  is_signed t = true ->
  representable t (val a) = true ->
  representable t (val b) = true ->
  representable t (f (val a) (val b)) = false ->
  arith tgt f a b = None.
Proof.
  intros Ht Hb Hs Ha Hv Hr.
  unfold arith, result.
  rewrite Ht, (wrap_fits t _ Hb Ha), (wrap_fits t _ Hb Hv), Hs, Hr.
  reflexivity.
Qed.

Lemma table_index_above (tgt : int_model) (m : memory) (vbat : Z) :
  1800 <= vbat <= 65535 ->
  LTC3335_VBAT_TO_TABLE_INDEX tgt (CVal uint16_t vbat) m
  = Some (CVal uint8_t (((vbat - 1800) / 100) mod 256), m).
Proof.
  intros H.
  assert (Hq : (vbat - 1800) ÷ 100 = (vbat - 1800) / 100)
    by (apply Z.quot_div_nonneg; lia).
  pose proof (Z.mod_pos_bound (vbat - 1800) 100 ltac:(lia)) as Hm.
  pose proof (Z.div_mod (vbat - 1800) 100 ltac:(lia)) as Hdm.
  assert (Hi : 0 <= (vbat - 1800) / 100 <= 637) by lia.
  unfold LTC3335_VBAT_TO_TABLE_INDEX, sub, div,
    LTC3335_VBAT_MIN, LTC3335_VBAT_STEP.
  destruct tgt.
  all: do 2 c_step.
  all: rewrite Hq; reflexivity.
Qed.

(** X1. Above VBAT_MIN the macro inverts the map from table index to node
    voltage: every voltage of segment k, [1800 + k * 100 + r] with
    0 <= r <= 99, is sent to k, for every k that fits [uint8_t]. *)
Theorem table_index_of_segment (tgt : int_model) (m : memory) (k r : Z) :
  0 <= k <= 255 -> 0 <= r <= 99 ->
  LTC3335_VBAT_TO_TABLE_INDEX tgt (CVal uint16_t (1800 + k * 100 + r)) m
  = Some (CVal uint8_t k, m).
Proof.
  intros Hk Hr.
  rewrite table_index_above by lia.
  replace (1800 + k * 100 + r - 1800) with (r + k * 100) by lia.
  rewrite Z.div_add by lia.
  rewrite (Z.div_small r 100) by lia.
  rewrite Z.mod_small by lia.
  reflexivity.
Qed.

Lemma table_index_of_segment_witness :
  0 <= 27 <= 255 /\ 0 <= 50 <= 99
  /\ LTC3335_VBAT_TO_TABLE_INDEX Int16 (CVal uint16_t (1800 + 27 * 100 + 50))
       (Memory [] [])
     = Some (CVal uint8_t 27, Memory [] []).
Proof.
  split; [lia |]. split; [lia |].
  apply (table_index_of_segment Int16 (Memory [] []) 27 50); lia.
Defined.

(** X2. The cast to [uint8_t] truncates: above VBAT_MIN the macro yields
    [((vbat - 1800) / 100) mod 256], which is an index inside the 38-entry
    table exactly for vbat in 1800 .. 5599, 27400 .. 31199 and
    53000 .. 56799.  Between 5600 and 27399 the macro alone indexes past
    the table; the function's upper range test keeps those inputs away
    from it. *)
Theorem table_index_truncation (tgt : int_model) (m : memory) (vbat : Z) :
  1800 <= vbat <= 65535 ->
  exists index : Z,
    LTC3335_VBAT_TO_TABLE_INDEX tgt (CVal uint16_t vbat) m
    = Some (CVal uint8_t index, m)
    /\ index = ((vbat - 1800) / 100) mod 256
    /\ (index < LTC3335_VBAT_NUM <->
        vbat < 5600 \/ 27400 <= vbat < 31200 \/ 53000 <= vbat < 56800).
Proof.
  intros H.
  exists (((vbat - 1800) / 100) mod 256).
  split; [apply table_index_above; exact H |].
  split; [reflexivity |].
  unfold LTC3335_VBAT_NUM.
  pose proof (Z.mod_pos_bound (vbat - 1800) 100 ltac:(lia)) as Hm.
  pose proof (Z.div_mod (vbat - 1800) 100 ltac:(lia)) as Hdm.
  pose proof (Z.mod_pos_bound ((vbat - 1800) / 100) 256 ltac:(lia)) as Hm'.
  pose proof (Z.div_mod ((vbat - 1800) / 100) 256 ltac:(lia)) as Hdm'.
  assert (Hc : 0 <= (vbat - 1800) / 100 / 256 <= 2) by lia.
  lia.
Qed.

Lemma table_index_truncation_witness :
  1800 <= 27400 <= 65535
  /\ exists index : Z,
       LTC3335_VBAT_TO_TABLE_INDEX Int16 (CVal uint16_t 27400) (Memory [] [])
       = Some (CVal uint8_t index, Memory [] [])
       /\ index = ((27400 - 1800) / 100) mod 256.
Proof.
  split; [lia |].
  destruct (table_index_truncation Int16 (Memory [] []) 27400 ltac:(lia))
    as [index [Hrun [Hidx _]]].
  exists index. split; [exact Hrun | exact Hidx].
Defined.

(** X3. Below VBAT_MIN the value of the macro depends on the width of
    [int].  With a 16-bit [int] the subtraction is unsigned and wraps, and
    the index is between 125 and 143, always past the table.  With a 32-bit
    [int] the subtraction is signed and the division truncates toward
    zero, so the index is 0 for 1701 .. 1799 and between 238 and 255 from
    1700 down.  The function's lower range test keeps these inputs away
    from the macro. *)
Theorem table_index_below_minimum (m : memory) (vbat : Z) :
  0 <= vbat < 1800 ->
  exists i16 i32 : Z,
    LTC3335_VBAT_TO_TABLE_INDEX Int16 (CVal uint16_t vbat) m
    = Some (CVal uint8_t i16, m)
    /\ LTC3335_VBAT_TO_TABLE_INDEX Int32 (CVal uint16_t vbat) m
       = Some (CVal uint8_t i32, m)
    /\ 125 <= i16 <= 143
    /\ (1700 < vbat -> i32 = 0)
    /\ (vbat <= 1700 -> 238 <= i32 <= 255).
Proof.
  intros H.
  exists (((vbat + 63736) / 100) mod 256),
         (((vbat - 1800) ÷ 100) mod 256).
  assert (Hq16 : (vbat + 63736) ÷ 100 = (vbat + 63736) / 100)
    by (apply Z.quot_div_nonneg; lia).
  pose proof (Z.mod_pos_bound (vbat + 63736) 100 ltac:(lia)) as Hm.
  pose proof (Z.div_mod (vbat + 63736) 100 ltac:(lia)) as Hdm.
  assert (Hi16 : 637 <= (vbat + 63736) / 100 <= 655) by lia.
  pose proof (Z.quot_rem' (vbat - 1800) 100) as Hqr.
  pose proof (Z.rem_bound_pos_neg (vbat - 1800) 100 ltac:(lia) ltac:(lia))
    as Hrem.
  assert (Hi32 : -18 <= (vbat - 1800) ÷ 100 <= 0) by lia.
  split; [| split; [| split; [| split]]].
  - unfold LTC3335_VBAT_TO_TABLE_INDEX, sub, div,
      LTC3335_VBAT_MIN, LTC3335_VBAT_STEP.
    rewrite (arith_unsigned Int16 Z.sub (CVal uint16_t vbat)
               (lit Int16 1800) uint16_t eq_refl eq_refl eq_refl) by fits.
    rewrite bind_lift.
    cbv beta delta [lit]; cbn [val bits uint16_t].
    replace ((vbat - 1800) mod 2 ^ 16) with (vbat + 63736).
    2:{ change (2 ^ 16) with 65536.
        replace (vbat - 1800) with (vbat + 63736 + (-1) * 65536) by lia.
        rewrite Z.mod_add by lia.
        symmetry. apply Z.mod_small. lia. }
    c_step.
    rewrite Hq16. reflexivity.
  - unfold LTC3335_VBAT_TO_TABLE_INDEX, sub, div,
      LTC3335_VBAT_MIN, LTC3335_VBAT_STEP.
    do 2 c_step.
    unfold wrap; cbn [is_signed uint8_t bits].
    reflexivity.
  - pose proof (Z.mod_pos_bound ((vbat + 63736) / 100) 256 ltac:(lia)).
    pose proof (Z.div_mod ((vbat + 63736) / 100) 256 ltac:(lia)).
    assert ((vbat + 63736) / 100 / 256 = 2) by lia.
    lia.
  - intros Hv.
    assert (E : (vbat - 1800) ÷ 100 = 0) by lia.
    rewrite E. reflexivity.
  - intros Hv.
    assert (E : (vbat - 1800) ÷ 100 <= -1) by lia.
    pose proof (Z.mod_pos_bound ((vbat - 1800) ÷ 100) 256 ltac:(lia)).
    pose proof (Z.div_mod ((vbat - 1800) ÷ 100) 256 ltac:(lia)).
    assert ((vbat - 1800) ÷ 100 / 256 = -1) by lia.
    lia.
Qed.

Lemma table_index_below_minimum_witness :
  0 <= 1750 < 1800
  /\ exists i16 i32 : Z,
       LTC3335_VBAT_TO_TABLE_INDEX Int16 (CVal uint16_t 1750) (Memory [] [])
       = Some (CVal uint8_t i16, Memory [] [])
       /\ LTC3335_VBAT_TO_TABLE_INDEX Int32 (CVal uint16_t 1750)
            (Memory [] [])
          = Some (CVal uint8_t i32, Memory [] [])
       /\ 125 <= i16 <= 143.
Proof.
  split; [lia |].
  destruct (table_index_below_minimum (Memory [] []) 1750 ltac:(lia))
    as [i16 [i32 [H16 [H32 [Hr _]]]]].
  exists i16, i32. split; [exact H16 |]. split; [exact H32 | exact Hr].
Defined.

(** ** The tables *)

Lemma entry_read (tbl : list Z) (k : Z) :
  (Z.to_nat k < length tbl)%nat ->
  nth_error tbl (Z.to_nat k) = Some (entry tbl k).
Proof. intros H. apply nth_error_nth'. exact H. Qed.

Lemma forallb_entry (P : Z -> bool) (tbl : list Z) (k : Z) :
  forallb P tbl = true ->
  (Z.to_nat k < length tbl)%nat ->
  P (entry tbl k) = true.
Proof.
  intros HP Hk.
  rewrite forallb_forall in HP.
  apply HP, nth_In, Hk.
Qed.

Lemma within_entry (lo hi : Z) (tbl : list Z) (k : Z) :
  within lo hi tbl = true ->
  (Z.to_nat k < length tbl)%nat ->
  lo <= entry tbl k <= hi.
Proof.
  intros Hw Hk.
  pose proof (forallb_entry _ tbl k Hw Hk) as H.
  cbv beta in H.
  apply andb_true_iff in H as [H1 H2].
  apply Z.leb_le in H1, H2.
  lia.
Qed.

(** X4. Every one of the 64 tables has exactly LTC3335_VBAT_NUM = 38
    initialisers, so none is padded with zeros; all entries lie in
    -2470 .. 25085; and two neighbouring entries differ by at most 445.
    The three bounds are attained. *)
Theorem tables_well_formed (ipeak : ipeak_configuration)
    (vout : output_voltage) :
  Z.of_nat (length (LTC3335_Software_Correction_Table ipeak vout))
  = LTC3335_VBAT_NUM
  /\ within (-2470) 25085 (LTC3335_Software_Correction_Table ipeak vout)
     = true
  /\ adjacent (fun a b => Z.abs (b - a) <=? 445)
       (LTC3335_Software_Correction_Table ipeak vout) = true
  /\ entry (LTC3335_Software_Correction_Table
              LTC3335_IPEAK_CONFIGURATION_100MA LTC3335_OUTPUT_VOLTAGE_5_0V)
       0 = -2470
  /\ entry (LTC3335_Software_Correction_Table
              LTC3335_IPEAK_CONFIGURATION_5MA LTC3335_OUTPUT_VOLTAGE_1_8V)
       37 = 25085
  /\ entry (LTC3335_Software_Correction_Table
              LTC3335_IPEAK_CONFIGURATION_5MA LTC3335_OUTPUT_VOLTAGE_1_8V)
       37
     - entry (LTC3335_Software_Correction_Table
                LTC3335_IPEAK_CONFIGURATION_5MA LTC3335_OUTPUT_VOLTAGE_1_8V)
         36 = 445.
Proof.
  split; [destruct ipeak, vout; reflexivity |].
  split; [destruct ipeak, vout; vm_compute; reflexivity |].
  split; [destruct ipeak, vout; vm_compute; reflexivity |].
  repeat split; reflexivity.
Qed.

(** ** The range of the function *)

Lemma spec_correction_factor_within (tbl : list Z) (lo hi vbat : Z) :
  length tbl = 38%nat ->
  within lo hi tbl = true ->
  lo <= spec_correction_factor tbl vbat <= hi.
Proof.
  intros Hlen Hw.
  unfold spec_correction_factor.
  destruct (Z.leb_spec vbat 1800);
    [apply within_entry; [exact Hw | rewrite Hlen; lia] |].
  destruct (Z.leb_spec 5500 vbat);
    [apply within_entry; [exact Hw | rewrite Hlen; lia] |].
  destruct (spec_index_range vbat ltac:(lia)) as [Hi _].
  pose proof (spec_interpolation_between tbl vbat ltac:(lia)).
  pose proof (within_entry lo hi tbl (spec_index vbat) Hw
                ltac:(rewrite Hlen; lia)).
  pose proof (within_entry lo hi tbl (spec_index vbat + 1) Hw
                ltac:(rewrite Hlen; lia)).
  lia.
Qed.

Lemma call_any_argument (tgt : int_model) (m : memory) (arg : Z) :
  table_ok tgt (progmem m) = true ->
  LTC3335_Get_Software_Correction_Factor tgt arg m
  = Some (spec_correction_factor (progmem m) (arg mod 65536), m).
Proof.
  intros Hok.
  rewrite call_wraps.
  apply (call_spec tgt m Hok).
  pose proof (Z.mod_pos_bound arg 65536 ltac:(lia)).
  lia.
Qed.

(** X5. The function never leaves the range of its table: if every entry
    of the compiled-in table lies in [lo .. hi], so does the result, for
    every argument.  Interpolation and rounding never produce a value
    beyond the extreme entries. *)
Theorem result_within_table_range (tgt : int_model)
    (ipeak : ipeak_configuration) (vout : output_voltage) (data : list Z)
    (lo hi arg : Z) :
  within lo hi (LTC3335_Software_Correction_Table ipeak vout) = true ->
  exists r : Z,
    LTC3335_Get_Software_Correction_Factor tgt arg (image ipeak vout data)
    = Some (r, image ipeak vout data)
    /\ lo <= r <= hi.
Proof.
  intros Hw.
  pose proof (table_ok_compiled tgt ipeak vout) as Hok.
  exists (spec_correction_factor
            (LTC3335_Software_Correction_Table ipeak vout)
            (arg mod 65536)).
  split.
  - apply (call_any_argument tgt (image ipeak vout data) arg Hok).
  - apply spec_correction_factor_within;
      [exact (table_ok_length tgt _ Hok) | exact Hw].
Qed.

Lemma result_within_table_range_witness :
  within 3312 11519
    (LTC3335_Software_Correction_Table LTC3335_IPEAK_CONFIGURATION_10MA
       LTC3335_OUTPUT_VOLTAGE_3_3V) = true
  /\ exists r : Z,
       LTC3335_Get_Software_Correction_Factor Int16 4550
         (image LTC3335_IPEAK_CONFIGURATION_10MA
            LTC3335_OUTPUT_VOLTAGE_3_3V [])
       = Some (r, image LTC3335_IPEAK_CONFIGURATION_10MA
                    LTC3335_OUTPUT_VOLTAGE_3_3V [])
       /\ 3312 <= r <= 11519.
Proof.
  split; [reflexivity |].
  apply (result_within_table_range Int16 LTC3335_IPEAK_CONFIGURATION_10MA
           LTC3335_OUTPUT_VOLTAGE_3_3V [] 3312 11519 4550 eq_refl).
Defined.

(** X6. For a peak current of 5, 10, 15 or 25 mA the correction factor is
    strictly positive, at least 245, whatever the output voltage and the
    argument: at low peak currents the correction always raises the
    count. *)
Theorem low_ipeak_factor_positive (tgt : int_model)
    (ipeak : ipeak_configuration) (vout : output_voltage) (data : list Z)
    (arg : Z) :
  ipeak_mA ipeak <= 25 ->
  exists r : Z,
    LTC3335_Get_Software_Correction_Factor tgt arg (image ipeak vout data)
    = Some (r, image ipeak vout data)
    /\ 245 <= r.
Proof.
  intros Hip.
  pose proof (table_ok_compiled tgt ipeak vout) as Hok.
  exists (spec_correction_factor
            (LTC3335_Software_Correction_Table ipeak vout)
            (arg mod 65536)).
  split; [apply (call_any_argument tgt (image ipeak vout data) arg Hok) |].
  assert (Hw : within 245 25085
                 (LTC3335_Software_Correction_Table ipeak vout) = true).
  { destruct ipeak; cbn [ipeak_mA] in Hip; try lia;
      destruct vout; vm_compute; reflexivity. }
  apply (spec_correction_factor_within _ 245 25085);
    [exact (table_ok_length tgt _ Hok) | exact Hw].
Qed.

Lemma low_ipeak_factor_positive_witness :
  ipeak_mA LTC3335_IPEAK_CONFIGURATION_15MA <= 25
  /\ exists r : Z,
       LTC3335_Get_Software_Correction_Factor Int16 1000
         (image LTC3335_IPEAK_CONFIGURATION_15MA
            LTC3335_OUTPUT_VOLTAGE_5_0V [])
       = Some (r, image LTC3335_IPEAK_CONFIGURATION_15MA
                    LTC3335_OUTPUT_VOLTAGE_5_0V [])
       /\ 245 <= r.
Proof.
  split; [cbn [ipeak_mA]; lia |].
  apply (low_ipeak_factor_positive Int16 LTC3335_IPEAK_CONFIGURATION_15MA
           LTC3335_OUTPUT_VOLTAGE_5_0V [] 1000).
  cbn [ipeak_mA]; lia.
Defined.

(** X7. For a peak current of 5, 10 or 15 mA every table is nondecreasing,
    so the correction factor is monotone nondecreasing in the battery
    voltage, over all inputs 0 .. 65535 and every output voltage. *)
Theorem low_ipeak_factor_monotone (tgt : int_model)
    (ipeak : ipeak_configuration) (vout : output_voltage) (data : list Z)
    (v1 v2 : Z) :
  ipeak_mA ipeak <= 15 ->
  0 <= v1 -> v1 <= v2 -> v2 <= 65535 ->
  nondecreasing (LTC3335_Software_Correction_Table ipeak vout) = true
  /\ exists r1 r2 : Z,
       LTC3335_Get_Software_Correction_Factor tgt v1 (image ipeak vout data)
       = Some (r1, image ipeak vout data)
       /\ LTC3335_Get_Software_Correction_Factor tgt v2
            (image ipeak vout data)
          = Some (r2, image ipeak vout data)
       /\ r1 <= r2.
Proof.
  intros Hip H1 H12 H2.
  pose proof (table_ok_compiled tgt ipeak vout) as Hok.
  assert (Hnd : nondecreasing (LTC3335_Software_Correction_Table ipeak vout)
                = true).
  { destruct ipeak; cbn [ipeak_mA] in Hip; try lia;
      destruct vout; vm_compute; reflexivity. }
  split; [exact Hnd |].
  exists (spec_correction_factor
            (LTC3335_Software_Correction_Table ipeak vout) v1),
         (spec_correction_factor
            (LTC3335_Software_Correction_Table ipeak vout) v2).
  split; [apply (call_spec tgt (image ipeak vout data) Hok); lia |].
  split; [apply (call_spec tgt (image ipeak vout data) Hok); lia |].
  apply spec_correction_factor_monotone;
    [exact (table_ok_length tgt _ Hok) | exact Hnd | exact H12].
Qed.

Lemma low_ipeak_factor_monotone_witness :
  ipeak_mA LTC3335_IPEAK_CONFIGURATION_5MA <= 15
  /\ 0 <= 1799 /\ 1799 <= 5501 /\ 5501 <= 65535
  /\ exists r1 r2 : Z,
       LTC3335_Get_Software_Correction_Factor Int32 1799
         (image LTC3335_IPEAK_CONFIGURATION_5MA LTC3335_OUTPUT_VOLTAGE_1_8V
            [])
       = Some (r1, image LTC3335_IPEAK_CONFIGURATION_5MA
                     LTC3335_OUTPUT_VOLTAGE_1_8V [])
       /\ LTC3335_Get_Software_Correction_Factor Int32 5501
            (image LTC3335_IPEAK_CONFIGURATION_5MA
               LTC3335_OUTPUT_VOLTAGE_1_8V [])
          = Some (r2, image LTC3335_IPEAK_CONFIGURATION_5MA
                        LTC3335_OUTPUT_VOLTAGE_1_8V [])
       /\ r1 <= r2.
Proof.
  split; [cbn [ipeak_mA]; lia |].
  split; [lia |]. split; [lia |]. split; [lia |].
  apply (proj2 (low_ipeak_factor_monotone Int32
                  LTC3335_IPEAK_CONFIGURATION_5MA
                  LTC3335_OUTPUT_VOLTAGE_1_8V [] 1799 5501
                  ltac:(cbn [ipeak_mA]; lia) ltac:(lia) ltac:(lia)
                  ltac:(lia))).
Defined.

(** ** The width of int *)

(** X8. On the compiled-in tables the width of [int] does not show: for
    every configuration and every argument the function returns the same
    value with a 16-bit and with a 32-bit [int], although the two targets
    type the subtractions differently. *)
Theorem same_result_on_both_targets (ipeak : ipeak_configuration)
    (vout : output_voltage) (data : list Z) (arg : Z) :
  LTC3335_Get_Software_Correction_Factor Int16 arg (image ipeak vout data)
  = LTC3335_Get_Software_Correction_Factor Int32 arg (image ipeak vout data).
Proof.
  rewrite (call_any_argument Int16 (image ipeak vout data) arg
             (table_ok_compiled Int16 ipeak vout)).
  rewrite (call_any_argument Int32 (image ipeak vout data) arg
             (table_ok_compiled Int32 ipeak vout)).
  reflexivity.
Qed.

Lemma int16_steps_fit_int32 (tbl : list Z) :
  forallb (representable int16_t) tbl = true ->
  adjacent (fun a b => representable (c_int Int32) (b - a)) tbl = true.
Proof.
  induction tbl as [| a rest IH]; intros H; [reflexivity |].
  destruct rest as [| b rest']; [reflexivity |].
  cbn [forallb] in H.
  apply andb_true_iff in H as [Ha H].
  pose proof H as Hrest.
  cbn [forallb] in H.
  apply andb_true_iff in H as [Hb _].
  apply (representable_iff int16_t) in Ha, Hb.
  change (min_of int16_t) with (-32768) in *.
  change (max_of int16_t) with 32767 in *.
  cbn [adjacent].
  apply andb_true_iff. split; [| apply IH; exact Hrest].
  apply fits_int32. lia.
Qed.

(** X9. With a 32-bit [int] the function is defined on every table of 38
    [int16_t] entries, however steep: for every argument it returns the
    clamped or interpolated value and leaves the memory unchanged.  The
    difference of two entries always fits a 32-bit [int]. *)
Theorem defined_on_any_table_int32 (tbl data : list Z) (arg : Z) :
  length tbl = 38%nat ->
  forallb (representable int16_t) tbl = true ->
  LTC3335_Get_Software_Correction_Factor Int32 arg (Memory tbl data)
  = Some (spec_correction_factor tbl (arg mod 65536), Memory tbl data).
Proof.
  intros Hlen Hall.
  apply (call_any_argument Int32 (Memory tbl data) arg).
  unfold table_ok; cbn [progmem].
  rewrite Hlen, Hall, (int16_steps_fit_int32 tbl Hall).
  reflexivity.
Qed.

Lemma defined_on_any_table_int32_witness :
  length (repeat (-32768) 19 ++ repeat 32767 19) = 38%nat
  /\ forallb (representable int16_t) (repeat (-32768) 19 ++ repeat 32767 19)
     = true
  /\ LTC3335_Get_Software_Correction_Factor Int32 3650
       (Memory (repeat (-32768) 19 ++ repeat 32767 19) [])
     = Some (0, Memory (repeat (-32768) 19 ++ repeat 32767 19) []).
Proof.
  split; [reflexivity |]. split; [reflexivity |].
  apply (defined_on_any_table_int32 (repeat (-32768) 19 ++ repeat 32767 19)
           [] 3650 eq_refl eq_refl).
Defined.

(** X10. With a 16-bit [int] the cast to [int32_t] comes too late:
    [factor2 - factor1] is evaluated in [int] before it is widened.  On a
    table of 38 [int16_t] entries, an input inside a segment whose
    difference does not fit 16 bits makes that subtraction overflow, and
    the function has no defined value there.  No compiled-in table has
    such a segment. *)
Theorem undefined_on_steep_segment_int16 (tbl data : list Z) (vbat : Z) :
  length tbl = 38%nat ->
  forallb (representable int16_t) tbl = true ->
  1800 < vbat < 5500 ->
  representable int16_t
    (entry tbl (spec_index vbat + 1) - entry tbl (spec_index vbat)) = false ->
  LTC3335_Get_Software_Correction_Factor Int16 vbat (Memory tbl data) = None.
Proof.
  intros Hlen Hall H Hsteep.
  destruct (spec_index_range vbat ltac:(lia)) as [Hi _].
  pose proof (spec_index_div vbat ltac:(lia)) as Hq.
  unfold spec_index, LTC3335_VBAT_MIN, LTC3335_VBAT_STEP in Hq.
  pose proof (forallb_entry _ tbl (spec_index vbat) Hall
                ltac:(rewrite Hlen; lia)) as Rlo.
  pose proof (forallb_entry _ tbl (spec_index vbat + 1) Hall
                ltac:(rewrite Hlen; lia)) as Rhi.
  pose proof (entry_read tbl (spec_index vbat) ltac:(rewrite Hlen; lia))
    as Hlo.
  pose proof (entry_read tbl (spec_index vbat + 1) ltac:(rewrite Hlen; lia))
    as Hhi.
  apply (representable_iff int16_t) in Rlo, Rhi.
  change (min_of int16_t) with (-32768) in *.
  change (max_of int16_t) with 32767 in *.
  revert Hi Rlo Rhi Hlo Hhi Hsteep.
  unfold spec_index, LTC3335_VBAT_MIN, LTC3335_VBAT_STEP.
  set (index := (vbat - 1800) ÷ 100).
  intros Hi Rlo Rhi Hlo Hhi Hsteep.
  unfold LTC3335_Get_Software_Correction_Factor, LTC3335_VBAT_TO_TABLE_INDEX,
    LTC3335_VBAT_MAX, interpolation_product, add, sub, mul, div, le, ge,
    LTC3335_VBAT_MIN, LTC3335_VBAT_STEP, LTC3335_VBAT_NUM.
  rewrite (wrap_fits uint16_t vbat) by (reflexivity || fits).
  c_step; rewrite (proj2 (Z.leb_gt _ _)) by lia.
  do 4 c_step; rewrite Z.geb_leb, (proj2 (Z.leb_gt _ _)) by lia.
  fold index.
  do 3 c_step.
  rewrite (bind_pgm_read_word (Memory tbl data) _ (entry tbl index))
    by (cbn [val progmem]; first [lia | exact Hlo]).
  c_step.
  rewrite (bind_pgm_read_word (Memory tbl data) _ (entry tbl (index + 1)))
    by (cbn [val progmem]; first [lia | exact Hhi]).
  cbv beta delta [cast lit]; cbn [val ty].
  rewrite !wrap_int16_word by assumption.
  rewrite !bind_assoc.
  rewrite (arith_overflow Int16 Z.sub (CVal int16_t (entry tbl (index + 1)))
             (CVal int16_t (entry tbl index)) int16_t eq_refl eq_refl eq_refl)
    by (first [fits | exact Hsteep]).
  reflexivity.
Qed.

Lemma undefined_on_steep_segment_int16_witness :
  length (repeat (-32768) 19 ++ repeat 32767 19) = 38%nat
  /\ forallb (representable int16_t) (repeat (-32768) 19 ++ repeat 32767 19)
     = true
  /\ 1800 < 3650 < 5500
  /\ representable int16_t
       (entry (repeat (-32768) 19 ++ repeat 32767 19) (spec_index 3650 + 1)
        - entry (repeat (-32768) 19 ++ repeat 32767 19) (spec_index 3650))
     = false
  /\ LTC3335_Get_Software_Correction_Factor Int16 3650
       (Memory (repeat (-32768) 19 ++ repeat 32767 19) [])
     = None.
Proof.
  split; [reflexivity |]. split; [reflexivity |]. split; [lia |].
  split; [reflexivity |].
  apply (undefined_on_steep_segment_int16
           (repeat (-32768) 19 ++ repeat 32767 19) [] 3650
           eq_refl eq_refl ltac:(lia) eq_refl).
Defined.

(** ** Accuracy of the interpolation *)

(** For a numerator that is not negative, adding 50 and truncating rounds
    to the nearest integer, a tie going up. *)
Lemma round_nearest (n : Z) :
  0 <= n -> -50 < 100 * ((n + 50) ÷ 100) - n <= 50.
Proof.
  intros Hn.
  pose proof (Z.quot_rem' (n + 50) 100) as E.
  pose proof (Z.rem_bound_pos (n + 50) 100 ltac:(lia) ltac:(lia)).
  lia.
Qed.

(** For a negative numerator the same expression never rounds down: the
    quotient is at or above the exact value, by less than 1.5, and by at
    least 0.5 once the numerator is below -50. *)
Lemma round_biased (n : Z) :
  n <= 0 ->
  0 <= 100 * ((n + 50) ÷ 100) - n < 150
  /\ (n < -50 -> 50 <= 100 * ((n + 50) ÷ 100) - n).
Proof.
  intros Hn.
  pose proof (Z.quot_rem' (n + 50) 100) as E.
  destruct (Z_lt_le_dec (n + 50) 0) as [Hneg | Hpos].
  - pose proof (Z.rem_bound_pos_neg (n + 50) 100 ltac:(lia) ltac:(lia)).
    lia.
  - pose proof (Z.rem_bound_pos (n + 50) 100 Hpos ltac:(lia)).
    assert ((n + 50) ÷ 100 = 0) by (apply Z.quot_small; lia).
    lia.
Qed.

Lemma spec_interpolation_unfold (tbl : list Z) (vbat : Z) :
  spec_interpolation tbl vbat
  = entry tbl (spec_index vbat)
    + ((entry tbl (spec_index vbat + 1) - entry tbl (spec_index vbat))
       * (vbat - (1800 + spec_index vbat * 100)) + 50) ÷ 100.
Proof. reflexivity. Qed.

(** X11. On a rising or flat segment (lo <= hi) the result is the exact
    linear interpolation rounded to the nearest integer, ties upward: one
    hundred times its offset from lo differs from
    [(hi - lo) * (vbat - node)] by more than -50 and at most 50. *)
Theorem rising_segment_rounds_to_nearest (tgt : int_model)
    (ipeak : ipeak_configuration) (vout : output_voltage) (data : list Z)
    (vbat : Z) :
  1800 < vbat < 5500 ->
  entry (LTC3335_Software_Correction_Table ipeak vout) (spec_index vbat)
  <= entry (LTC3335_Software_Correction_Table ipeak vout)
       (spec_index vbat + 1) ->
  exists r : Z,
    LTC3335_Get_Software_Correction_Factor tgt vbat (image ipeak vout data)
    = Some (r, image ipeak vout data)
    /\ -50
       < 100 * (r - entry (LTC3335_Software_Correction_Table ipeak vout)
                      (spec_index vbat))
         - (entry (LTC3335_Software_Correction_Table ipeak vout)
              (spec_index vbat + 1)
            - entry (LTC3335_Software_Correction_Table ipeak vout)
                (spec_index vbat))
           * (vbat - (1800 + spec_index vbat * 100))
       <= 50.
Proof.
  intros H Hrise.
  pose proof (table_ok_compiled tgt ipeak vout) as Hok.
  set (tbl := LTC3335_Software_Correction_Table ipeak vout) in *.
  destruct (spec_index_range vbat ltac:(lia)) as [_ Hr].
  exists (spec_interpolation tbl vbat).
  split; [apply (call_between tgt (image ipeak vout data) Hok); exact H |].
  rewrite spec_interpolation_unfold.
  pose proof (round_nearest
    ((entry tbl (spec_index vbat + 1) - entry tbl (spec_index vbat))
     * (vbat - (1800 + spec_index vbat * 100))) ltac:(nia)).
  lia.
Qed.

Lemma rising_segment_rounds_to_nearest_witness :
  1800 < 4533 < 5500
  /\ entry (LTC3335_Software_Correction_Table
              LTC3335_IPEAK_CONFIGURATION_10MA LTC3335_OUTPUT_VOLTAGE_3_3V)
       (spec_index 4533)
     <= entry (LTC3335_Software_Correction_Table
                 LTC3335_IPEAK_CONFIGURATION_10MA
                 LTC3335_OUTPUT_VOLTAGE_3_3V)
          (spec_index 4533 + 1)
  /\ exists r : Z,
       LTC3335_Get_Software_Correction_Factor Int16 4533
         (image LTC3335_IPEAK_CONFIGURATION_10MA
            LTC3335_OUTPUT_VOLTAGE_3_3V [])
       = Some (r, image LTC3335_IPEAK_CONFIGURATION_10MA
                    LTC3335_OUTPUT_VOLTAGE_3_3V []).
Proof.
  split; [lia |].
  split; [vm_compute; discriminate |].
  destruct (rising_segment_rounds_to_nearest Int16
              LTC3335_IPEAK_CONFIGURATION_10MA LTC3335_OUTPUT_VOLTAGE_3_3V
              [] 4533 ltac:(lia) ltac:(vm_compute; discriminate))
    as [r [Hrun _]].
  exists r. exact Hrun.
Defined.

(** X12. On a falling segment (hi < lo) the result is never below the
    exact linear interpolation and lies less than 1.5 above it; once the
    numerator [(hi - lo) * (vbat - node)] is below -50, it lies at least
    0.5 above it, so it is the nearest integer only at an exact tie. *)
Theorem falling_segment_rounds_upward (tgt : int_model)
    (ipeak : ipeak_configuration) (vout : output_voltage) (data : list Z)
    (vbat : Z) :
  1800 < vbat < 5500 ->
  entry (LTC3335_Software_Correction_Table ipeak vout) (spec_index vbat + 1)
  < entry (LTC3335_Software_Correction_Table ipeak vout) (spec_index vbat) ->
  exists r : Z,
    LTC3335_Get_Software_Correction_Factor tgt vbat (image ipeak vout data)
    = Some (r, image ipeak vout data)
    /\ 0
       <= 100 * (r - entry (LTC3335_Software_Correction_Table ipeak vout)
                       (spec_index vbat))
          - (entry (LTC3335_Software_Correction_Table ipeak vout)
               (spec_index vbat + 1)
             - entry (LTC3335_Software_Correction_Table ipeak vout)
                 (spec_index vbat))
            * (vbat - (1800 + spec_index vbat * 100))
       < 150
    /\ ((entry (LTC3335_Software_Correction_Table ipeak vout)
           (spec_index vbat + 1)
         - entry (LTC3335_Software_Correction_Table ipeak vout)
             (spec_index vbat))
        * (vbat - (1800 + spec_index vbat * 100)) < -50 ->
        50
        <= 100 * (r - entry (LTC3335_Software_Correction_Table ipeak vout)
                        (spec_index vbat))
           - (entry (LTC3335_Software_Correction_Table ipeak vout)
                (spec_index vbat + 1)
              - entry (LTC3335_Software_Correction_Table ipeak vout)
                  (spec_index vbat))
             * (vbat - (1800 + spec_index vbat * 100))).
Proof.
  intros H Hfall.
  pose proof (table_ok_compiled tgt ipeak vout) as Hok.
  set (tbl := LTC3335_Software_Correction_Table ipeak vout) in *.
  destruct (spec_index_range vbat ltac:(lia)) as [_ Hr].
  exists (spec_interpolation tbl vbat).
  split; [apply (call_between tgt (image ipeak vout data) Hok); exact H |].
  rewrite spec_interpolation_unfold.
  destruct (round_biased
    ((entry tbl (spec_index vbat + 1) - entry tbl (spec_index vbat))
     * (vbat - (1800 + spec_index vbat * 100))) ltac:(nia)) as [Hb Hc].
  split; [lia |].
  intros Hn. specialize (Hc Hn). lia.
Qed.

Lemma falling_segment_rounds_upward_witness :
  1800 < 1801 < 5500
  /\ entry (LTC3335_Software_Correction_Table
              LTC3335_IPEAK_CONFIGURATION_100MA LTC3335_OUTPUT_VOLTAGE_1_8V)
       (spec_index 1801 + 1)
     < entry (LTC3335_Software_Correction_Table
                LTC3335_IPEAK_CONFIGURATION_100MA
                LTC3335_OUTPUT_VOLTAGE_1_8V)
         (spec_index 1801)
  /\ exists r : Z,
       LTC3335_Get_Software_Correction_Factor Int16 1801
         (image LTC3335_IPEAK_CONFIGURATION_100MA
            LTC3335_OUTPUT_VOLTAGE_1_8V [])
       = Some (r, image LTC3335_IPEAK_CONFIGURATION_100MA
                    LTC3335_OUTPUT_VOLTAGE_1_8V [])
       /\ 50 <= 100 * (r - 549) - (287 - 549) * (1801 - (1800 + 0 * 100)).
Proof.
  split; [lia |].
  split; [reflexivity |].
  destruct (falling_segment_rounds_upward Int16
              LTC3335_IPEAK_CONFIGURATION_100MA LTC3335_OUTPUT_VOLTAGE_1_8V
              [] 1801 ltac:(lia) eq_refl) as [r [Hrun [_ Hc]]].
  exists r. split; [exact Hrun |].
  apply Hc. reflexivity.
Defined.

(** ** The shape of the function between two nodes *)

Lemma spec_index_segment (k r : Z) :
  0 <= k -> 0 <= r <= 99 -> spec_index (1800 + k * 100 + r) = k.
Proof.
  intros Hk Hr.
  rewrite spec_index_div by lia.
  replace (1800 + k * 100 + r - 1800) with (r + k * 100) by lia.
  rewrite Z.div_add by lia.
  rewrite (Z.div_small r 100) by lia.
  lia.
Qed.

(** Inside segment k, at distance r from its lower node. *)
Lemma segment_value (tbl : list Z) (k r : Z) :
  0 <= k <= 36 -> 0 <= r <= 99 ->
  spec_correction_factor tbl (1800 + k * 100 + r)
  = entry tbl k + ((entry tbl (k + 1) - entry tbl k) * r + 50) ÷ 100.
Proof.
  intros Hk Hr.
  unfold spec_correction_factor.
  destruct (Z.leb_spec (1800 + k * 100 + r) 1800) as [Hlow | Hlow].
  - assert (k = 0) by lia. assert (r = 0) by lia. subst k r.
    rewrite Z.mul_0_r. change ((0 + 50) ÷ 100) with 0. lia.
  - destruct (Z.leb_spec 5500 (1800 + k * 100 + r)); [lia |].
    rewrite spec_interpolation_unfold, spec_index_segment by lia.
    do 3 f_equal. lia.
Qed.

Lemma node_value (tbl : list Z) (k : Z) :
  0 <= k <= 37 ->
  spec_correction_factor tbl (1800 + k * 100) = entry tbl k.
Proof.
  intros Hk.
  destruct (Z.eq_dec k 37) as [-> | Hne]; [reflexivity |].
  replace (1800 + k * 100) with (1800 + k * 100 + 0) by lia.
  rewrite segment_value by lia.
  rewrite Z.mul_0_r. change ((0 + 50) ÷ 100) with 0. lia.
Qed.

(** The value at any point of the closed segment k, ordered against the
    value at a later point of the same segment. *)
Lemma segment_ordered (tbl : list Z) (k v1 v2 : Z) :
  0 <= k <= 36 ->
  1800 + k * 100 <= v1 -> v1 <= v2 -> v2 <= 1800 + (k + 1) * 100 ->
  (entry tbl k <= entry tbl (k + 1) ->
   spec_correction_factor tbl v1 <= spec_correction_factor tbl v2)
  /\ (entry tbl (k + 1) <= entry tbl k ->
      spec_correction_factor tbl v2 <= spec_correction_factor tbl v1).
Proof.
  intros Hk H1 H12 H2.
  destruct (Z.eq_dec v1 (1800 + (k + 1) * 100)) as [E1 | N1].
  { assert (v2 = v1) by lia. subst v2. split; intros _; lia. }
  replace v1 with (1800 + k * 100 + (v1 - (1800 + k * 100))) by lia.
  rewrite (segment_value tbl k (v1 - (1800 + k * 100))) by lia.
  pose proof (round_between (entry tbl (k + 1) - entry tbl k)
                (v1 - (1800 + k * 100)) ltac:(lia)) as Hb1.
  destruct (Z.eq_dec v2 (1800 + (k + 1) * 100)) as [E2 | N2].
  - subst v2.
    rewrite (node_value tbl (k + 1)) by lia.
    split; intros Hd; lia.
  - replace v2 with (1800 + k * 100 + (v2 - (1800 + k * 100))) by lia.
    rewrite (segment_value tbl k (v2 - (1800 + k * 100))) by lia.
    split; intros Hd.
    + apply Z.add_le_mono_l, Z.quot_le_mono; nia.
    + apply Z.add_le_mono_l, Z.quot_le_mono; nia.
Qed.

(** X13. Between two neighbouring nodes the function moves in one
    direction only, that of the segment: for
    [1800 + k * 100 <= v1 <= v2 <= 1800 + (k + 1) * 100] the result at v2 is
    at least the result at v1 on a rising segment and at most that on a
    falling one.  The rounding introduces no local reversal, on any
    table. *)
Theorem monotone_within_segment (tgt : int_model)
    (ipeak : ipeak_configuration) (vout : output_voltage) (data : list Z)
    (k v1 v2 : Z) :
  0 <= k <= 36 ->
  1800 + k * 100 <= v1 -> v1 <= v2 -> v2 <= 1800 + (k + 1) * 100 ->
  exists r1 r2 : Z,
    LTC3335_Get_Software_Correction_Factor tgt v1 (image ipeak vout data)
    = Some (r1, image ipeak vout data)
    /\ LTC3335_Get_Software_Correction_Factor tgt v2 (image ipeak vout data)
       = Some (r2, image ipeak vout data)
    /\ (entry (LTC3335_Software_Correction_Table ipeak vout) k
        <= entry (LTC3335_Software_Correction_Table ipeak vout) (k + 1) ->
        r1 <= r2)
    /\ (entry (LTC3335_Software_Correction_Table ipeak vout) (k + 1)
        <= entry (LTC3335_Software_Correction_Table ipeak vout) k ->
        r2 <= r1).
Proof.
  intros Hk H1 H12 H2.
  pose proof (table_ok_compiled tgt ipeak vout) as Hok.
  exists (spec_correction_factor
            (LTC3335_Software_Correction_Table ipeak vout) v1),
         (spec_correction_factor
            (LTC3335_Software_Correction_Table ipeak vout) v2).
  split; [apply (call_spec tgt (image ipeak vout data) Hok); lia |].
  split; [apply (call_spec tgt (image ipeak vout data) Hok); lia |].
  apply (segment_ordered _ k); assumption.
Qed.

Lemma monotone_within_segment_witness :
  0 <= 0 <= 36
  /\ 1800 + 0 * 100 <= 1801 /\ 1801 <= 1850 /\ 1850 <= 1800 + (0 + 1) * 100
  /\ exists r1 r2 : Z,
       LTC3335_Get_Software_Correction_Factor Int16 1801
         (image LTC3335_IPEAK_CONFIGURATION_100MA
            LTC3335_OUTPUT_VOLTAGE_1_8V [])
       = Some (r1, image LTC3335_IPEAK_CONFIGURATION_100MA
                     LTC3335_OUTPUT_VOLTAGE_1_8V [])
       /\ LTC3335_Get_Software_Correction_Factor Int16 1850
            (image LTC3335_IPEAK_CONFIGURATION_100MA
               LTC3335_OUTPUT_VOLTAGE_1_8V [])
          = Some (r2, image LTC3335_IPEAK_CONFIGURATION_100MA
                        LTC3335_OUTPUT_VOLTAGE_1_8V [])
       /\ r2 <= r1.
Proof.
  split; [lia |]. split; [lia |]. split; [lia |]. split; [lia |].
  destruct (monotone_within_segment Int16 LTC3335_IPEAK_CONFIGURATION_100MA
              LTC3335_OUTPUT_VOLTAGE_1_8V [] 0 1801 1850
              ltac:(lia) ltac:(lia) ltac:(lia) ltac:(lia))
    as [r1 [r2 [Hr1 [Hr2 [_ Hfall]]]]].
  exists r1, r2.
  split; [exact Hr1 |]. split; [exact Hr2 |].
  apply Hfall. vm_compute; discriminate.
Defined.

(** ** Bounded slope *)

Lemma quot_step (a b : Z) :
  -495 <= a - b <= 495 -> -5 <= a ÷ 100 - b ÷ 100 <= 5.
Proof.
  intros H.
  pose proof (Z.quot_rem' a 100) as Ea.
  pose proof (Z.quot_rem' b 100) as Eb.
  destruct (Z_lt_le_dec a 0) as [Ha | Ha];
    destruct (Z_lt_le_dec b 0) as [Hb | Hb].
  - pose proof (Z.rem_bound_pos_neg a 100 ltac:(lia) ltac:(lia)).
    pose proof (Z.rem_bound_pos_neg b 100 ltac:(lia) ltac:(lia)).
    lia.
  - pose proof (Z.rem_bound_pos_neg a 100 ltac:(lia) ltac:(lia)).
    pose proof (Z.rem_bound_pos b 100 ltac:(lia) ltac:(lia)).
    lia.
  - pose proof (Z.rem_bound_pos a 100 ltac:(lia) ltac:(lia)).
    pose proof (Z.rem_bound_pos_neg b 100 ltac:(lia) ltac:(lia)).
    lia.
  - pose proof (Z.rem_bound_pos a 100 ltac:(lia) ltac:(lia)).
    pose proof (Z.rem_bound_pos b 100 ltac:(lia) ltac:(lia)).
    lia.
Qed.

Lemma steps_bounded_compiled (ipeak : ipeak_configuration)
    (vout : output_voltage) :
  adjacent (fun a b => Z.abs (b - a) <=? 445)
    (LTC3335_Software_Correction_Table ipeak vout) = true.
Proof. destruct ipeak, vout; vm_compute; reflexivity. Qed.

Lemma slope_bounded (tbl : list Z) (v : Z) :
  length tbl = 38%nat ->
  adjacent (fun a b => Z.abs (b - a) <=? 445) tbl = true ->
  -5 <= spec_correction_factor tbl (v + 1) - spec_correction_factor tbl v <= 5.
Proof.
  intros Hlen Hadj.
  destruct (Z_lt_le_dec v 1800) as [Hlow | Hlow].
  { unfold spec_correction_factor.
    rewrite (proj2 (Z.leb_le v 1800)) by lia.
    rewrite (proj2 (Z.leb_le (v + 1) 1800)) by lia.
    lia. }
  destruct (Z_lt_le_dec v 5500) as [Hhigh | Hhigh].
  2:{ unfold spec_correction_factor.
      rewrite (proj2 (Z.leb_gt v 1800)) by lia.
      rewrite (proj2 (Z.leb_gt (v + 1) 1800)) by lia.
      rewrite (proj2 (Z.leb_le 5500 v)) by lia.
      rewrite (proj2 (Z.leb_le 5500 (v + 1))) by lia.
      lia. }
  pose proof (Z.mod_pos_bound (v - 1800) 100 ltac:(lia)) as Hm.
  pose proof (Z.div_mod (v - 1800) 100 ltac:(lia)) as Hdm.
  set (k := (v - 1800) / 100) in *.
  set (r := (v - 1800) mod 100) in *.
  assert (Hk : 0 <= k <= 36) by lia.
  assert (Hd : -445 <= entry tbl (k + 1) - entry tbl k <= 445).
  { pose proof (adjacent_nth _ tbl (Z.to_nat k) Hadj ltac:(rewrite Hlen; lia))
      as Hs.
    cbv beta in Hs. apply Z.leb_le in Hs.
    unfold entry.
    replace (Z.to_nat (k + 1)) with (S (Z.to_nat k)) by lia.
    lia. }
  replace v with (1800 + k * 100 + r) by lia.
  rewrite (segment_value tbl k r) by lia.
  destruct (Z.eq_dec r 99) as [E | NE].
  - replace (1800 + k * 100 + r + 1) with (1800 + (k + 1) * 100) by lia.
    rewrite (node_value tbl (k + 1)) by lia.
    pose proof (quot_step ((entry tbl (k + 1) - entry tbl k) * 100)
                  ((entry tbl (k + 1) - entry tbl k) * r + 50) ltac:(lia))
      as Hq.
    rewrite Z.quot_mul in Hq by lia.
    lia.
  - replace (1800 + k * 100 + r + 1) with (1800 + k * 100 + (r + 1)) by lia.
    rewrite (segment_value tbl k (r + 1)) by lia.
    pose proof (quot_step ((entry tbl (k + 1) - entry tbl k) * (r + 1) + 50)
                  ((entry tbl (k + 1) - entry tbl k) * r + 50) ltac:(lia)).
    lia.
Qed.

(** X14. One millivolt more at the input changes the result by at most 5,
    for every configuration and every input: the function has no jump, not
    at the two range tests and not where one segment hands over to the
    next.  The bound is reached (5 mA, 1.8 V: 23075 at 5024 and 23080 at
    5025). *)
Theorem slope_at_most_five (tgt : int_model) (ipeak : ipeak_configuration)
    (vout : output_voltage) (data : list Z) (vbat : Z) :
  0 <= vbat < 65535 ->
  (exists r1 r2 : Z,
     LTC3335_Get_Software_Correction_Factor tgt vbat (image ipeak vout data)
     = Some (r1, image ipeak vout data)
     /\ LTC3335_Get_Software_Correction_Factor tgt (vbat + 1)
          (image ipeak vout data)
        = Some (r2, image ipeak vout data)
     /\ -5 <= r2 - r1 <= 5)
  /\ LTC3335_Get_Software_Correction_Factor tgt 5024
       (image LTC3335_IPEAK_CONFIGURATION_5MA LTC3335_OUTPUT_VOLTAGE_1_8V
          data)
     = Some (23075,
             image LTC3335_IPEAK_CONFIGURATION_5MA
               LTC3335_OUTPUT_VOLTAGE_1_8V data)
  /\ LTC3335_Get_Software_Correction_Factor tgt 5025
       (image LTC3335_IPEAK_CONFIGURATION_5MA LTC3335_OUTPUT_VOLTAGE_1_8V
          data)
     = Some (23080,
             image LTC3335_IPEAK_CONFIGURATION_5MA
               LTC3335_OUTPUT_VOLTAGE_1_8V data).
Proof.
  intros H.
  pose proof (table_ok_compiled tgt ipeak vout) as Hok.
  split; [| split; destruct tgt; reflexivity].
  exists (spec_correction_factor
            (LTC3335_Software_Correction_Table ipeak vout) vbat),
         (spec_correction_factor
            (LTC3335_Software_Correction_Table ipeak vout) (vbat + 1)).
  split; [apply (call_spec tgt (image ipeak vout data) Hok); lia |].
  split; [apply (call_spec tgt (image ipeak vout data) Hok); lia |].
  apply slope_bounded;
    [exact (table_ok_length tgt _ Hok) | apply steps_bounded_compiled].
Qed.

Lemma slope_at_most_five_witness :
  0 <= 5499 < 65535
  /\ exists r1 r2 : Z,
       LTC3335_Get_Software_Correction_Factor Int16 5499
         (image LTC3335_IPEAK_CONFIGURATION_5MA LTC3335_OUTPUT_VOLTAGE_1_8V
            [])
       = Some (r1, image LTC3335_IPEAK_CONFIGURATION_5MA
                     LTC3335_OUTPUT_VOLTAGE_1_8V [])
       /\ LTC3335_Get_Software_Correction_Factor Int16 (5499 + 1)
            (image LTC3335_IPEAK_CONFIGURATION_5MA
               LTC3335_OUTPUT_VOLTAGE_1_8V [])
          = Some (r2, image LTC3335_IPEAK_CONFIGURATION_5MA
                        LTC3335_OUTPUT_VOLTAGE_1_8V [])
       /\ -5 <= r2 - r1 <= 5.
Proof.
  split; [lia |].
  apply (proj1 (slope_at_most_five Int16 LTC3335_IPEAK_CONFIGURATION_5MA
                  LTC3335_OUTPUT_VOLTAGE_1_8V [] 5499 ltac:(lia))).
Defined.

(** ** What the function reads *)

Lemma read_prefix (tgt : int_model) (tbl extra : list Z) (k : Z) :
  table_ok tgt tbl = true ->
  0 <= k <= 37 ->
  nth_error (tbl ++ extra) (Z.to_nat k) = Some (entry tbl k).
Proof.
  intros Hok Hk.
  rewrite nth_error_app1 by (rewrite (table_ok_length tgt tbl Hok); lia).
  apply (table_ok_read tgt tbl Hok k Hk).
Qed.

(** X15. The function reads the 38 table words and nothing behind them:
    whatever follows the table in program memory, the result is the one
    computed from the table alone, for every argument.  No index reaches
    entry 38 or beyond. *)
Theorem reads_confined_to_table (tgt : int_model) (tbl extra data : list Z)
    (arg : Z) :
  table_ok tgt tbl = true ->
  LTC3335_Get_Software_Correction_Factor tgt arg (Memory (tbl ++ extra) data)
  = Some (spec_correction_factor tbl (arg mod 65536),
          Memory (tbl ++ extra) data)
  /\ LTC3335_Get_Software_Correction_Factor tgt arg (Memory tbl data)
     = Some (spec_correction_factor tbl (arg mod 65536), Memory tbl data).
Proof.
  intros Hok.
  split; [| apply (call_any_argument tgt (Memory tbl data) arg Hok)].
  rewrite call_wraps.
  pose proof (Z.mod_pos_bound arg 65536 ltac:(lia)) as Hm.
  set (v := arg mod 65536) in *.
  unfold spec_correction_factor.
  destruct (Z.leb_spec v 1800) as [Hlow | Hlow].
  { apply clamp_low_run; [lia | |].
    - apply (read_prefix tgt tbl extra 0 Hok). lia.
    - apply (table_ok_entry tgt tbl Hok). lia. }
  destruct (Z.leb_spec 5500 v) as [Hhigh | Hhigh].
  { apply clamp_high_run; [lia | |].
    - apply (read_prefix tgt tbl extra 37 Hok). lia.
    - apply (table_ok_entry tgt tbl Hok). lia. }
  destruct (spec_index_range v ltac:(lia)) as [Hi _].
  unfold spec_interpolation.
  rewrite spec_index_div in * by lia.
  apply interpolate_run; [lia | | | | |].
  - apply (read_prefix tgt tbl extra _ Hok). lia.
  - apply (read_prefix tgt tbl extra _ Hok). lia.
  - apply (table_ok_entry tgt tbl Hok). lia.
  - apply (table_ok_entry tgt tbl Hok). lia.
  - apply (table_ok_step tgt tbl Hok). lia.
Qed.

Lemma reads_confined_to_table_witness :
  table_ok Int16
    (LTC3335_Software_Correction_Table LTC3335_IPEAK_CONFIGURATION_10MA
       LTC3335_OUTPUT_VOLTAGE_3_3V) = true
  /\ LTC3335_Get_Software_Correction_Factor Int16 5499
       (Memory
          (LTC3335_Software_Correction_Table LTC3335_IPEAK_CONFIGURATION_10MA
             LTC3335_OUTPUT_VOLTAGE_3_3V ++ [32767; -32768])
          [])
     = Some (11516,
             Memory
               (LTC3335_Software_Correction_Table
                  LTC3335_IPEAK_CONFIGURATION_10MA
                  LTC3335_OUTPUT_VOLTAGE_3_3V ++ [32767; -32768])
               []).
Proof.
  split; [reflexivity |].
  apply (proj1 (reads_confined_to_table Int16
                  (LTC3335_Software_Correction_Table
                     LTC3335_IPEAK_CONFIGURATION_10MA
                     LTC3335_OUTPUT_VOLTAGE_3_3V)
                  [32767; -32768] [] 5499 eq_refl)).
Defined.
